(** * Dual Thrust and momentum rotation: the two strategy scripts

    A shallow embedding of [Algorithm.Python/_DualThrust.py] and
    [Algorithm.Python/_Mom_Based_Rotation.py].

    Both scripts are classes deriving from the host's [QCAlgorithm]; their
    methods read market data and the portfolio from the host and place
    orders through it.  Methods are embedded as functions in a state and
    error monad over the host; [self] is passed explicitly.  Prices,
    quantities and weights are exact rationals ([Q]): the rounding of
    Python's binary floating point is not part of the model. *)

From Stdlib Require Import QArith Qminmax ZArith List String Bool.
From Stdlib Require Import Permutation Sorted Lqa.
Import ListNotations.

Local Open Scope string_scope.
Local Open Scope list_scope.

(** ** Python runtime: exceptions and results *)

Inductive PyError : Type :=
| TypeError
| ValueError
| KeyError
| ZeroDivisionError.

Inductive result (A : Type) : Type :=
| Ok (a : A)
| Raise (e : PyError).

Arguments Ok {A} a.
Arguments Raise {A} e.

(** [x >= y] and [x < y] between a number and an attribute that may still
    be [None]: Python 3 raises [TypeError] for the latter. *)
Definition py_ge (x : Q) (y : option Q) : result bool :=
  match y with
  | Some t => Ok (Qle_bool t x)
  | None => Raise TypeError
  end.

Definition py_lt (x : Q) (y : option Q) : result bool :=
  match y with
  | Some t => Ok (negb (Qle_bool t x))
  | None => Raise TypeError
  end.

(** The builtins [max] and [min] over a non-empty iterable: the first
    element is the candidate, a later one replaces it when it is strictly
    greater (smaller); an empty iterable raises [ValueError]. *)
Definition py_max (l : list Q) : result Q :=
  match l with
  | [] => Raise ValueError
  | x :: xs => Ok (fold_left (fun best y => if Qle_bool y best then best else y) xs x)
  end.

Definition py_min (l : list Q) : result Q :=
  match l with
  | [] => Raise ValueError
  | x :: xs => Ok (fold_left (fun best y => if Qle_bool best y then best else y) xs x)
  end.

(** True division [x / n] by the length of a list. *)
Definition py_div (x : Q) (n : nat) : result Q :=
  match n with
  | O => Raise ZeroDivisionError
  | S _ => Ok (x / inject_Z (Z.of_nat n))%Q
  end.

(** [key in l] on a list of strings. *)
Definition py_in (key : string) (l : list string) : bool :=
  existsb (String.eqb key) l.

(** ** The host framework as the scripts see it *)

Inductive Resolution : Type := Tick | Second | Minute | Hour | Daily.

Inductive SecurityType : Type := Base | Equity | Option_ | Forex | Future | Cfd | Crypto.

Inductive DateRule : Type :=
| EveryDay (symbol : string)
| MonthStart (symbol : string).

Inductive TimeRule : Type :=
| AfterMarketOpen (symbol : string) (minutes : Z).

(** The methods a script can hand to the scheduler. *)
Inductive Method : Type := MInitialize | MSetSignal | MOnData | MRebalance.

(** Pieces of a log line: literal text, or [str] of a numeric attribute
    (which may be [None]); the text of a formatted float is left symbolic. *)
Inductive LogPart : Type :=
| Text (s : string)
| Str (v : option Q).

(** State-changing calls into the host, recorded in the order issued. *)
Inductive HostCall : Type :=
| SetStartDate (y m d : Z)
| SetEndDate (y m d : Z)
| SetCash (cash : Z)
| AddSecurity (ty : SecurityType) (ticker : string) (r : Resolution)
| AddEquity (ticker : string) (r : Resolution)
| SetWarmUp (period : Z)
| MOM (ticker : string) (period : Z) (r : Resolution)
| ScheduleOn (d : DateRule) (t : TimeRule) (action : Method)
| Liquidate (symbol : string)
| SetHoldings (symbol : string) (weight : Q)
| Log (msg : list LogPart).

(** A pandas series of numbers, a frame of named columns, and the
    symbol-indexed frame that [History] returns. *)
Definition Series : Type := list Q.
Definition Frame : Type := list (string * Series).
Definition DataFrame : Type := list (string * Frame).

Record SecurityHolding : Type := mkHolding {
  Symbol : string;
  Price : Q;
  Quantity : Q
}.

(** [Invested]: the holding has a non-zero quantity. *)
Definition Invested (sec : SecurityHolding) : bool :=
  negb (Qeq_bool (Quantity sec) 0).

(** A registered indicator; its current value is kept by the host. *)
Record Indicator : Type := mkIndicator {
  ind_symbol : string;
  ind_period : Z;
  ind_resolution : Resolution
}.

(** What the host provides at the time a callback runs.  [History], the
    indicator values and the order sizing are the host's own and enter as
    fields; [calls] is the record of calls made so far, oldest first. *)
Record Host : Type := mkHost {
  History : list string -> nat -> Resolution -> DataFrame;
  Portfolio : list SecurityHolding;
  IsWarmingUp : bool;
  Current : Indicator -> Q;
  order_size : string -> Q -> Q;
  calls : list HostCall
}.

(** ** The monad of a callback: host state and exceptions *)

Definition M (A : Type) : Type := Host -> result (A * Host).

Definition ret {A : Type} (a : A) : M A := fun h => Ok (a, h).

Definition bind {A B : Type} (c : M A) (k : A -> M B) : M B :=
  fun h =>
    match c h with
    | Ok (a, h') => k a h'
    | Raise e => Raise e
    end.

Definition lift {A : Type} (r : result A) : M A :=
  fun h =>
    match r with
    | Ok a => Ok (a, h)
    | Raise e => Raise e
    end.

Definition ask : M Host := fun h => Ok (h, h).

Declare Scope py_scope.
Delimit Scope py_scope with py.
Notation "x <- c ;; k" := (bind c (fun x => k))
  (at level 61, c at next level, right associativity) : py_scope.
Notation "c ;;; k" := (bind c (fun _ => k))
  (at level 61, right associativity) : py_scope.
Local Open Scope py_scope.

(** [for x in l: body x] *)
Fixpoint for_each {A : Type} (l : list A) (body : A -> M unit) : M unit :=
  match l with
  | [] => ret tt
  | x :: xs => body x ;;; for_each xs body
  end.

(** A loop that carries a local variable. *)
Fixpoint for_fold {A B : Type} (l : list A) (body : B -> A -> M B) (acc : B) : M B :=
  match l with
  | [] => ret acc
  | x :: xs => acc' <- body acc x ;; for_fold xs body acc'
  end.

(** Lookup in a string-keyed table; a missing key raises [KeyError]. *)
Fixpoint getitem {V : Type} (tbl : list (string * V)) (key : string) : result V :=
  match tbl with
  | [] => Raise KeyError
  | (k, v) :: rest => if String.eqb k key then Ok v else getitem rest key
  end.

(** [d[key] = v] on an insertion-ordered dict. *)
Fixpoint setitem {V : Type} (tbl : list (string * V)) (key : string) (v : V)
  : list (string * V) :=
  match tbl with
  | [] => [(key, v)]
  | (k, v0) :: rest =>
      if String.eqb k key then (k, v) :: rest else (k, v0) :: setitem rest key v
  end.

Definition find_holding (symbol : string) (p : list SecurityHolding)
  : option SecurityHolding :=
  find (fun sec => String.eqb (Symbol sec) symbol) p.

Definition set_quantity (symbol : string) (q : Q) (p : list SecurityHolding)
  : list SecurityHolding :=
  map (fun sec =>
         if String.eqb (Symbol sec) symbol
         then mkHolding (Symbol sec) (Price sec) q
         else sec) p.

Definition with_portfolio (p : list SecurityHolding) (h : Host) : Host :=
  mkHost (History h) p (IsWarmingUp h) (Current h) (order_size h) (calls h).

Definition record_call (c : HostCall) (h : Host) : Host :=
  mkHost (History h) (Portfolio h) (IsWarmingUp h) (Current h) (order_size h)
         (calls h ++ [c]).

Definition emit (c : HostCall) : M unit := fun h => Ok (tt, record_call c h).

(** [self.Portfolio[symbol]] *)
Definition Portfolio_get (symbol : string) : M SecurityHolding :=
  fun h =>
    match find_holding symbol (Portfolio h) with
    | Some sec => Ok (sec, h)
    | None => Raise KeyError
    end.

(** Modelled from the spec: the host's order simulation is not part of the
    scripts.  [Liquidate] closes the position in the symbol at once;
    [SetHoldings] leaves the quantity the host's own order sizing yields for
    the target weight; adding a security gives it an empty holding. *)
Definition host_Liquidate (symbol : string) : M unit :=
  fun h =>
    Ok (tt, record_call (Liquidate symbol)
              (with_portfolio (set_quantity symbol 0 (Portfolio h)) h)).

Definition host_SetHoldings (symbol : string) (weight : Q) : M unit :=
  fun h =>
    Ok (tt, record_call (SetHoldings symbol weight)
              (with_portfolio
                 (set_quantity symbol (order_size h symbol weight) (Portfolio h)) h)).

Definition add_holding (ticker : string) (p : list SecurityHolding)
  : list SecurityHolding :=
  match find_holding ticker p with
  | Some _ => p
  | None => p ++ [mkHolding ticker 0 0]
  end.

Definition host_AddSecurity (ty : SecurityType) (ticker : string) (r : Resolution)
  : M string :=
  fun h =>
    Ok (ticker, record_call (AddSecurity ty ticker r)
                  (with_portfolio (add_holding ticker (Portfolio h)) h)).

Definition host_AddEquity (ticker : string) (r : Resolution) : M string :=
  fun h =>
    Ok (ticker, record_call (AddEquity ticker r)
                  (with_portfolio (add_holding ticker (Portfolio h)) h)).

Definition host_MOM (ticker : string) (period : Z) (r : Resolution) : M Indicator :=
  emit (MOM ticker period r) ;;; ret (mkIndicator ticker period r).

(** The orders among a list of calls. *)
Definition is_order (c : HostCall) : bool :=
  match c with
  | Liquidate _ | SetHoldings _ _ => true
  | _ => false
  end.

Definition orders (cs : list HostCall) : list HostCall := filter is_order cs.

(** Modelled from the spec: the host's date rules over a trading calendar.
    [EveryDay] selects every trading day, [MonthStart] the first trading day
    of each month, the one whose month differs from that of the trading day
    before. *)
Definition date_rule_fires (d : DateRule) (prev_month this_month : Z) : bool :=
  match d with
  | EveryDay _ => true
  | MonthStart _ => negb (Z.eqb prev_month this_month)
  end.

(** ** [class DualThrustAlgorithm(QCAlgorithm)] *)

Module DualThrust.

(** The attributes of [self].  [high], [low] and [close] do not exist
    until [SetSignal] has assigned them. *)
Record Algo : Type := mkAlgo {
  syl : string;
  selltrig : option Q;
  buytrig : option Q;
  currentopen : option Q;
  high : option Series;
  low : option Series;
  close : option Series
}.

(** The methods the class defines. *)
Definition methods : list Method := [MInitialize; MSetSignal; MOnData].

Definition Initialize : M Algo :=
  emit (SetStartDate 2010 1 1) ;;;
  emit (SetEndDate 2018 8 31) ;;;
  emit (SetCash 100000) ;;;
  equity <- host_AddSecurity Equity "NFLX" Hour ;;
  emit (ScheduleOn (EveryDay equity) (AfterMarketOpen equity 0) MSetSignal) ;;;
  ret (mkAlgo equity None None None None None None).

(** The range of the window: [HH - LC] when it is at least [HC - LL],
    else [HC - LL]. *)
Definition signalrange (HH HC LC LL : Q) : Q :=
  if Qle_bool (HC - LL) (HH - LC) then (HH - LC)%Q else (HC - LL)%Q.

Definition SetSignal (self : Algo) : M Algo :=
  h <- ask ;;
  let history := History h [syl self] 4 Daily in
  let k1 := (1 # 2)%Q in
  let k2 := (1 # 2)%Q in
  f1 <- lift (getitem history (syl self)) ;;
  high_ <- lift (getitem f1 "high") ;;
  f2 <- lift (getitem history (syl self)) ;;
  low_ <- lift (getitem f2 "low") ;;
  f3 <- lift (getitem history (syl self)) ;;
  close_ <- lift (getitem f3 "close") ;;
  sec <- Portfolio_get (syl self) ;;
  let currentopen_ := Price sec in
  HH <- lift (py_max high_) ;;
  HC <- lift (py_max close_) ;;
  LC <- lift (py_min close_) ;;
  LL <- lift (py_min low_) ;;
  let range := signalrange HH HC LC LL in
  ret (mkAlgo (syl self)
              (Some (currentopen_ - k1 * range)%Q)
              (Some (currentopen_ + k2 * range)%Q)
              (Some currentopen_)
              (Some high_) (Some low_) (Some close_)).

Definition log_line (self : Algo) : list LogPart :=
  [Text "open: "; Str (currentopen self);
   Text " buy: "; Str (buytrig self);
   Text " sell: "; Str (selltrig self)].

Definition OnData (self : Algo) : M unit :=
  sec <- Portfolio_get (syl self) ;;
  let holdings := Quantity sec in
  sec1 <- Portfolio_get (syl self) ;;
  above <- lift (py_ge (Price sec1) (selltrig self)) ;;
  (if above then
     if Qle_bool 0 holdings then
       host_SetHoldings (syl self) (4 # 5)
     else
       host_Liquidate (syl self) ;;;
       host_SetHoldings (syl self) (4 # 5)
   else
     sec2 <- Portfolio_get (syl self) ;;
     below <- lift (py_lt (Price sec2) (selltrig self)) ;;
     if below then
       if Qle_bool 0 holdings then
         host_Liquidate (syl self) ;;;
         host_SetHoldings (syl self) (- (4 # 5))
       else
         host_SetHoldings (syl self) (- (4 # 5))
     else ret tt) ;;;
  emit (Log (log_line self)).

Definition set_buytrig (b : option Q) (self : Algo) : Algo :=
  mkAlgo (syl self) (selltrig self) b (currentopen self)
         (high self) (low self) (close self).

End DualThrust.

(** ** [class CountryEquityIndexesMomentumAlgorithm(QCAlgorithm)] *)

Module Momentum.

Record Algo : Type := mkAlgo {
  data : list (string * Indicator);
  symbols : list string
}.

Definition methods : list Method := [MInitialize; MOnData; MRebalance].

Definition universe : list string :=
  ["AMZN"; "NFLX"; "NVDA"; "MSFT"; "BA"; "CSCO"; "AAPL"; "V"; "HD"; "UNH";
   "BAC"; "JPM"; "GOOGL"; "INTC"; "PFE"; "WMT"; "BRKb"; "VZ"; "DIS"; "WFC";
   "JNJ"; "XOM"; "CVX"; "C"; "CMCSA"; "FB"; "ORCL"; "T"; "BABA"; "TSLA";
   "IVV"].

Definition period : Z := 6 * 21.

(** [TimeRules.AfterMarketOpen("IVV")] is called without the minutes, which
    the host takes as 0. *)
Definition Initialize : M Algo :=
  emit (SetStartDate 2018 3 1) ;;;
  emit (SetEndDate 2018 9 12) ;;;
  emit (SetCash 10000) ;;;
  let data0 : list (string * Indicator) := [] in
  let symbols_ := universe in
  emit (SetWarmUp period) ;;;
  data_ <- for_fold symbols_
             (fun d symbol =>
                host_AddEquity symbol Daily ;;;
                ind <- host_MOM symbol period Daily ;;
                ret (setitem d symbol ind))
             data0 ;;
  emit (ScheduleOn (EveryDay "IVV") (AfterMarketOpen "IVV" 0) MRebalance) ;;;
  ret (mkAlgo data_ symbols_).

Definition OnData (self : Algo) : M unit := ret tt.

(** [pd.Series(self.data)]: the symbols with the current value of their
    indicator, in the order of the dict. *)
Definition scores (self : Algo) (h : Host) : list (string * Q) :=
  map (fun kv => (fst kv, Current h (snd kv))) (data self).

Section Rebalance.

(** [Series.sort_values(ascending=...)] is pandas's; it enters as a
    parameter. *)
Variable sort_values : bool -> list (string * Q) -> list (string * Q).

(** [top.index] *)
Definition top_index (self : Algo) (h : Host) : list string :=
  map fst (firstn 9 (sort_values false (scores self h))).

Definition Rebalance (self : Algo) : M unit :=
  h <- ask ;;
  if IsWarmingUp h then ret tt
  else
    let top := top_index self h in
    for_each (map Symbol (Portfolio h))
      (fun key =>
         security_hold <- Portfolio_get key ;;
         if Invested security_hold && negb (py_in (Symbol security_hold) top)
         then host_Liquidate (Symbol security_hold)
         else ret tt) ;;;
    added_symbols <- for_fold top
      (fun added symbol =>
         sec <- Portfolio_get symbol ;;
         if negb (Invested sec) then ret (added ++ [symbol]) else ret added)
      [] ;;
    for_each added_symbols
      (fun added =>
         w <- lift (py_div 1 (List.length added_symbols)) ;;
         host_SetHoldings added w).

End Rebalance.

(** An insertion sort by value, to run [Rebalance] on examples; equal
    values come out in the reverse of their order in the input. *)
Definition before (ascending : bool) (a b : string * Q) : bool :=
  if ascending then Qle_bool (snd a) (snd b) else Qle_bool (snd b) (snd a).

Fixpoint insert_by (ascending : bool) (x : string * Q) (l : list (string * Q))
  : list (string * Q) :=
  match l with
  | [] => [x]
  | y :: ys =>
      if before ascending y x then y :: insert_by ascending x ys else x :: y :: ys
  end.

Definition insertion_sort (ascending : bool) (l : list (string * Q))
  : list (string * Q) :=
  fold_right (insert_by ascending) [] l.

End Momentum.

(** ** Vocabulary of the statements *)

(** [m] is a greatest (least) element of the series [l]. *)
Definition is_max (m : Q) (l : Series) : Prop :=
  In m l /\ forall x, In x l -> (x <= m)%Q.

Definition is_min (m : Q) (l : Series) : Prop :=
  In m l /\ forall x, In x l -> (m <= x)%Q.

(** The calls a callback added to the host's record. *)
Definition issued (h h' : Host) (cs : list HostCall) : Prop :=
  calls h' = calls h ++ cs.

(** Two outcomes of a callback place the same orders: both fail with the
    same exception, or both return having recorded the same orders and left
    the same portfolio. *)
Definition same_orders (r1 r2 : result (unit * Host)) : Prop :=
  match r1, r2 with
  | Ok (_, h1), Ok (_, h2) =>
      orders (calls h1) = orders (calls h2) /\ Portfolio h1 = Portfolio h2
  | Raise e1, Raise e2 => e1 = e2
  | _, _ => False
  end.

(** The schedule entries among a list of calls. *)
Definition scheduled (cs : list HostCall) : list (DateRule * TimeRule * Method) :=
  flat_map (fun c => match c with
                     | ScheduleOn d t m => [(d, t, m)]
                     | _ => []
                     end) cs.

(** *** Momentum rotation *)

(** The holdings [Rebalance] has to close: invested, symbol not in [top]. *)
Definition to_liquidate (top : list string) (p : list SecurityHolding)
  : list string :=
  map Symbol
      (filter (fun sec => Invested sec && negb (py_in (Symbol sec) top)) p).

(** The symbols of [top] that have a holding which is not invested. *)
Definition to_add (top : list string) (p : list SecurityHolding) : list string :=
  filter (fun s => match find_holding s p with
                   | Some sec => negb (Invested sec)
                   | None => false
                   end) top.

(** The host after [Liquidate] on each symbol of a list, and after
    [SetHoldings] at one weight on each symbol of a list. *)
Definition liquidated (symbol : string) (h : Host) : Host :=
  record_call (Liquidate symbol)
              (with_portfolio (set_quantity symbol 0 (Portfolio h)) h).

Definition liquidate_all (l : list string) (h : Host) : Host :=
  fold_left (fun h0 s => liquidated s h0) l h.

Definition holdings_set (w : Q) (symbol : string) (h : Host) : Host :=
  record_call (SetHoldings symbol w)
              (with_portfolio
                 (set_quantity symbol (order_size h symbol w) (Portfolio h)) h).

Definition set_all (w : Q) (l : list string) (h : Host) : Host :=
  fold_left (fun h0 s => holdings_set w s h0) l h.

(** The calls of the momentum script's [Initialize], and the dict it
    leaves in [self.data]. *)
Definition registered (l : list string) : list (string * Indicator) :=
  fold_left (fun d s => setitem d s (mkIndicator s Momentum.period Daily)) l [].

Definition momentum_init_calls : list HostCall :=
  [SetStartDate 2018 3 1; SetEndDate 2018 9 12; SetCash 10000;
   SetWarmUp Momentum.period]
  ++ flat_map (fun s => [AddEquity s Daily; MOM s Momentum.period Daily])
              Momentum.universe
  ++ [ScheduleOn (EveryDay "IVV") (AfterMarketOpen "IVV" 0) MRebalance].

(** The host after the registration loop of the momentum script's
    [Initialize]. *)
Definition register_all (l : list string) (h : Host) : Host :=
  fold_left
    (fun h0 s =>
       record_call (MOM s Momentum.period Daily)
         (record_call (AddEquity s Daily)
            (with_portfolio (add_holding s (Portfolio h0)) h0)))
    l h.

(** The target weight a record of calls leaves a symbol with: that of the
    last [SetHoldings] on it, none after a [Liquidate]. *)
Definition target_weight (cs : list HostCall) (s : string) : option Q :=
  fold_left
    (fun acc c =>
       match c with
       | SetHoldings s' w => if String.eqb s' s then Some w else acc
       | Liquidate s' => if String.eqb s' s then None else acc
       | _ => acc
       end) cs None.

(** The rotation as the words "top 9, equally weighted" have it: when
    [Rebalance] returns, every symbol of the top 9 has the target weight
    1/9. *)
Definition holds_top9_equally
           (sort_values : bool -> list (string * Q) -> list (string * Q))
           (self : Momentum.Algo) (h : Host) : Prop :=
  forall h' : Host,
    Momentum.Rebalance sort_values self h = Ok (tt, h') ->
    forall s : string,
      In s (Momentum.top_index sort_values self h) ->
      exists w : Q, target_weight (calls h') s = Some w /\ (w == 1 # 9)%Q.

(** Boolean checks for concrete lists of symbols. *)
Fixpoint nodupb (l : list string) : bool :=
  match l with
  | [] => true
  | x :: xs => negb (py_in x xs) && nodupb xs
  end.

Definition inclb (l1 l2 : list string) : bool :=
  forallb (fun s => py_in s l2) l1.

(** Example host states for the rotation: the universe with scores falling
    along the list, so that its first nine symbols are the top, and a
    chosen set of symbols invested. *)
Fixpoint index_of (s : string) (l : list string) : Z :=
  match l with
  | [] => 0
  | x :: xs => if String.eqb x s then 0 else 1 + index_of s xs
  end.

Definition falling_score (ind : Indicator) : Q :=
  inject_Z (- index_of (ind_symbol ind) Momentum.universe).

Definition held (invested : list string) : list SecurityHolding :=
  map (fun s => mkHolding s 100 (if py_in s invested then 10 else 0))
      Momentum.universe.

Definition rot_host (warming : bool) (invested : list string) : Host :=
  mkHost (fun _ _ _ => []) (held invested) warming falling_score
         (fun _ w => (w * 100)%Q) [].

Definition rot_self : Momentum.Algo :=
  Momentum.mkAlgo (registered Momentum.universe) Momentum.universe.

(** Eight of the top nine are held, with IVV from outside the top. *)
Definition eight_held : list string :=
  ["AMZN"; "NFLX"; "NVDA"; "MSFT"; "BA"; "CSCO"; "AAPL"; "V"; "IVV"].

(** [s] is invested in the portfolio [p]. *)
Definition invested_in (p : list SecurityHolding) (s : string) : Prop :=
  exists sec, find_holding s p = Some sec /\ Invested sec = true.

(** Example host states for Dual Thrust: four daily bars of NFLX, the
    price at the open, and a flat or short position. *)
Definition nflx_history : DataFrame :=
  [("NFLX", [("high", [10; 12; 11; 13]%Q);
             ("low", [8; 9; 7; 10]%Q);
             ("close", [9; 11; 10; 12]%Q)])].

Definition nflx_host (price quantity : Q) : Host :=
  mkHost (fun _ _ _ => nflx_history) [mkHolding "NFLX" price quantity] false
         (fun _ => 0%Q) (fun _ w => w) [].

Definition nflx_fresh : DualThrust.Algo :=
  DualThrust.mkAlgo "NFLX" None None None None None None.

Definition nflx_armed : DualThrust.Algo :=
  DualThrust.mkAlgo "NFLX" (Some (19 # 2)%Q) (Some (29 # 2)%Q) (Some 12%Q)
                    None None None.

(** *** Further vocabulary *)

(** A call is, if an order at all, an order on [symbol]; of the other calls
    only log lines are let through. *)
Definition concerns (symbol : string) (c : HostCall) : Prop :=
  match c with
  | Liquidate s => s = symbol
  | SetHoldings s _ => s = symbol
  | Log _ => True
  | _ => False
  end.

(** The number of [SetHoldings] among a list of calls. *)
Fixpoint count_SetHoldings (cs : list HostCall) : nat :=
  match cs with
  | [] => O
  | SetHoldings _ _ :: rest => S (count_SetHoldings rest)
  | _ :: rest => count_SetHoldings rest
  end.

(** Two host states differ at most in the quantities held and in the record
    of calls: same securities at the same prices, same warm-up flag, same
    indicator values, history and order sizing. *)
Definition same_market (h h' : Host) : Prop :=
  map Symbol (Portfolio h') = map Symbol (Portfolio h) /\
  map Price (Portfolio h') = map Price (Portfolio h) /\
  IsWarmingUp h' = IsWarmingUp h /\
  Current h' = Current h /\
  order_size h' = order_size h /\
  History h' = History h.

(** The host the momentum script's [Initialize] leaves. *)
Definition momentum_init_host (h : Host) : Host :=
  record_call (ScheduleOn (EveryDay "IVV") (AfterMarketOpen "IVV" 0) MRebalance)
    (register_all Momentum.universe
       (record_call (SetWarmUp Momentum.period)
          (record_call (SetCash 10000)
             (record_call (SetEndDate 2018 9 12)
                (record_call (SetStartDate 2018 3 1) h))))).

(** The order [sort_values(ascending=...)] sorts by. *)
Definition by_value (ascending : bool) (a b : string * Q) : Prop :=
  if ascending then (snd a <= snd b)%Q else (snd b <= snd a)%Q.

(** A host that has no history at all, and one that holds IVV only. *)
Definition no_history_host : Host :=
  mkHost (fun _ _ _ => []) [mkHolding "NFLX" 12 0] false
         (fun _ => 0%Q) (fun _ w => w) [].

Definition empty_column_host : Host :=
  mkHost (fun _ _ _ => [("NFLX", [("high", []); ("low", [8]%Q);
                                  ("close", [9]%Q)])])
         [mkHolding "NFLX" 12 0] false (fun _ => 0%Q) (fun _ w => w) [].

Definition lone_host : Host :=
  mkHost (fun _ _ _ => []) [mkHolding "IVV" 100 10] false falling_score
         (fun _ w => (w * 100)%Q) [].

(** ** Python builtins *)

Lemma fold_max_spec (xs : list Q) (x : Q) :
  is_max (fold_left (fun best y => if Qle_bool y best then best else y) xs x)
         (x :: xs).
Proof.
  revert x. induction xs as [|y ys IH]; intros x; simpl.
  - split; [now left|]. intros z [<-|[]]. apply Qle_refl.
  - destruct (Qle_bool y x) eqn:E.
    + destruct (IH x) as [Hin Hub]. split.
      * destruct Hin as [Hin|Hin]; [left; exact Hin | right; right; exact Hin].
      * intros z [<-|[<-|Hz]].
        -- apply Hub. now left.
        -- apply Qle_trans with x; [now apply Qle_bool_iff | apply Hub; now left].
        -- apply Hub. now right.
    + destruct (IH y) as [Hin Hub]. split.
      * right. exact Hin.
      * intros z [<-|[<-|Hz]].
        -- apply Qle_trans with y; [| apply Hub; now left].
           apply Qlt_le_weak, Qnot_le_lt. intro H.
           apply Qle_bool_iff in H. congruence.
        -- apply Hub. now left.
        -- apply Hub. now right.
Qed.

Lemma fold_min_spec (xs : list Q) (x : Q) :
  is_min (fold_left (fun best y => if Qle_bool best y then best else y) xs x)
         (x :: xs).
Proof.
  revert x. induction xs as [|y ys IH]; intros x; simpl.
  - split; [now left|]. intros z [<-|[]]. apply Qle_refl.
  - destruct (Qle_bool x y) eqn:E.
    + destruct (IH x) as [Hin Hlb]. split.
      * destruct Hin as [Hin|Hin]; [left; exact Hin | right; right; exact Hin].
      * intros z [<-|[<-|Hz]].
        -- apply Hlb. now left.
        -- apply Qle_trans with x; [apply Hlb; now left | now apply Qle_bool_iff].
        -- apply Hlb. now right.
    + destruct (IH y) as [Hin Hlb]. split.
      * right. exact Hin.
      * intros z [<-|[<-|Hz]].
        -- apply Qle_trans with y; [apply Hlb; now left |].
           apply Qlt_le_weak, Qnot_le_lt. intro H.
           apply Qle_bool_iff in H. congruence.
        -- apply Hlb. now left.
        -- apply Hlb. now right.
Qed.

Lemma py_max_spec (l : Series) :
  l <> [] -> exists m, py_max l = Ok m /\ is_max m l.
Proof.
  destruct l as [|x xs]; [congruence|]. intros _.
  eexists. split; [reflexivity | apply fold_max_spec].
Qed.

Lemma py_min_spec (l : Series) :
  l <> [] -> exists m, py_min l = Ok m /\ is_min m l.
Proof.
  destruct l as [|x xs]; [congruence|]. intros _.
  eexists. split; [reflexivity | apply fold_min_spec].
Qed.

Lemma signalrange_max (HH HC LC LL : Q) :
  DualThrust.signalrange HH HC LC LL = Qmax (HH - LC) (HC - LL).
Proof.
  unfold DualThrust.signalrange, Qmax, GenericMinMax.gmax.
  destruct (Qle_bool (HC - LL) (HH - LC)) eqn:E.
  - apply Qle_bool_iff in E.
    destruct (HH - LC ?= HC - LL)%Q eqn:C; try reflexivity.
    apply Qlt_alt in C. exfalso. exact (Qlt_not_le _ _ C E).
  - destruct (HH - LC ?= HC - LL)%Q eqn:C; try reflexivity.
    + apply Qeq_alt in C. exfalso.
      assert (H : Qle_bool (HC - LL) (HH - LC) = true)
        by (apply Qle_bool_iff; rewrite C; apply Qle_refl).
      congruence.
    + apply Qgt_alt in C. exfalso.
      assert (H : Qle_bool (HC - LL) (HH - LC) = true)
        by (apply Qle_bool_iff; now apply Qlt_le_weak).
      congruence.
Qed.

(** ** The monad *)

Lemma bind_Ok {A B : Type} (c : M A) (k : A -> M B) (h : Host) (r : B * Host) :
  bind c k h = Ok r -> exists a h1, c h = Ok (a, h1) /\ k a h1 = Ok r.
Proof.
  unfold bind. destruct (c h) as [[a h1]|e]; [|discriminate].
  intros H. exists a, h1. split; [reflexivity | exact H].
Qed.

Lemma find_holding_add (ticker : string) (p : list SecurityHolding) :
  exists sec, find_holding ticker (add_holding ticker p) = Some sec.
Proof.
  unfold add_holding. destruct (find_holding ticker p) as [sec|] eqn:E.
  - exists sec. exact E.
  - exists (mkHolding ticker 0 0). revert E. unfold find_holding.
    induction p as [|x xs IH]; simpl.
    + intros _. now rewrite String.eqb_refl.
    + destruct (String.eqb (Symbol x) ticker); [discriminate | exact IH].
Qed.

(** ** Dual Thrust *)

Section DualThrustFacts.

Import DualThrust.

Ltac run :=
  unfold SetSignal, bind, ret, lift, ask, Portfolio_get; simpl.

(** C1: [SetSignal] asks the host for a history of 4 daily bars, takes
    HH, HC, LC, LL as the greatest high, greatest close, least close and
    least low of it, and sets selltrig = open - 0.5 * range and
    buytrig = open + 0.5 * range with range = max(HH - LC, HC - LL). *)
Theorem SetSignal_triggers :
  forall (self : Algo) (h : Host) (frame : Frame)
         (highs lows closes : Series) (sec : SecurityHolding),
    getitem (History h [syl self] 4 Daily) (syl self) = Ok frame ->
    getitem frame "high" = Ok highs ->
    getitem frame "low" = Ok lows ->
    getitem frame "close" = Ok closes ->
    highs <> [] -> lows <> [] -> closes <> [] ->
    find_holding (syl self) (Portfolio h) = Some sec ->
    exists HH HC LC LL : Q,
      is_max HH highs /\ is_max HC closes /\
      is_min LC closes /\ is_min LL lows /\
      exists self' : Algo,
        SetSignal self h = Ok (self', h) /\
        currentopen self' = Some (Price sec) /\
        selltrig self' =
          Some (Price sec - (1 # 2) * Qmax (HH - LC) (HC - LL))%Q /\
        buytrig self' =
          Some (Price sec + (1 # 2) * Qmax (HH - LC) (HC - LL))%Q.
Proof.
  intros self h frame highs lows closes sec Hf Hh Hl Hc Nh Nl Nc Hsec.
  destruct (py_max_spec highs Nh) as (HH & EHH & MHH).
  destruct (py_max_spec closes Nc) as (HC & EHC & MHC).
  destruct (py_min_spec closes Nc) as (LC & ELC & MLC).
  destruct (py_min_spec lows Nl) as (LL & ELL & MLL).
  exists HH, HC, LC, LL. repeat (split; [assumption|]).
  run. rewrite Hf, Hh, Hl, Hc, Hsec, EHH, EHC, ELC, ELL.
  eexists. split; [reflexivity|]. simpl.
  rewrite signalrange_max. repeat split.
Qed.

Lemma SetSignal_triggers_witness :
  exists HH HC LC LL : Q,
    is_max HH [10; 12; 11; 13]%Q /\ is_max HC [9; 11; 10; 12]%Q /\
    is_min LC [9; 11; 10; 12]%Q /\ is_min LL [8; 9; 7; 10]%Q /\
    exists self' : Algo,
      SetSignal nflx_fresh (nflx_host 12 0) = Ok (self', nflx_host 12 0) /\
      currentopen self' = Some 12%Q /\
      selltrig self' = Some (12 - (1 # 2) * Qmax (HH - LC) (HC - LL))%Q /\
      buytrig self' = Some (12 + (1 # 2) * Qmax (HH - LC) (HC - LL))%Q.
Proof.
  apply (SetSignal_triggers nflx_fresh (nflx_host 12 0)
           [("high", [10; 12; 11; 13]%Q); ("low", [8; 9; 7; 10]%Q);
            ("close", [9; 11; 10; 12]%Q)]
           [10; 12; 11; 13]%Q [8; 9; 7; 10]%Q [9; 11; 10; 12]%Q
           (mkHolding "NFLX" 12 0));
    try reflexivity; discriminate.
Defined.

(** C2: with the triggers set, [OnData] goes 80% long when the price is
    at least selltrig, liquidating first when the position is short, and
    80% short when the price is below selltrig, liquidating first when the
    position is long or flat. *)
Theorem OnData_decision :
  forall (self : Algo) (h : Host) (t : Q) (sec : SecurityHolding),
    selltrig self = Some t ->
    find_holding (syl self) (Portfolio h) = Some sec ->
    exists (h' : Host) (os : list HostCall),
      OnData self h = Ok (tt, h') /\
      issued h h' (os ++ [Log (log_line self)]) /\
      ((t <= Price sec)%Q -> (0 <= Quantity sec)%Q ->
         os = [SetHoldings (syl self) (4 # 5)]) /\
      ((t <= Price sec)%Q -> (Quantity sec < 0)%Q ->
         os = [Liquidate (syl self); SetHoldings (syl self) (4 # 5)]) /\
      ((Price sec < t)%Q -> (0 <= Quantity sec)%Q ->
         os = [Liquidate (syl self); SetHoldings (syl self) (- (4 # 5))]) /\
      ((Price sec < t)%Q -> (Quantity sec < 0)%Q ->
         os = [SetHoldings (syl self) (- (4 # 5))]).
Proof.
  intros self h t sec Ht Hsec.
  unfold OnData, bind, Portfolio_get, lift, py_ge, py_lt.
  rewrite Ht. repeat (rewrite Hsec; cbv beta iota).
  destruct (Qle_bool t (Price sec)) eqn:Ep;
    destruct (Qle_bool 0 (Quantity sec)) eqn:Eq;
    cbv beta iota; repeat (rewrite Hsec; cbv beta iota);
    rewrite ?Ep; cbv beta iota delta [negb];
    unfold host_SetHoldings, host_Liquidate, emit, issued, ret;
    cbv beta iota.
  1: eexists; exists [SetHoldings (syl self) (4 # 5)].
  2: eexists; exists [Liquidate (syl self); SetHoldings (syl self) (4 # 5)].
  3: eexists;
     exists [Liquidate (syl self); SetHoldings (syl self) (- (4 # 5))].
  4: eexists; exists [SetHoldings (syl self) (- (4 # 5))].
  all: split; [reflexivity|].
  all: split;
    [ cbn [calls record_call with_portfolio];
      rewrite <- ?app_assoc; reflexivity |].
  all: repeat split; intros Hp Hq; try reflexivity; exfalso.
  all: try (apply Qle_bool_iff in Ep); try (apply Qle_bool_iff in Eq).
  all: try (apply (Qlt_not_le _ _ Hp); assumption).
  all: try (apply (Qlt_not_le _ _ Hq); assumption).
  all: try (apply Qle_bool_iff in Hp; congruence).
  all: try (apply Qle_bool_iff in Hq; congruence).
Qed.

Lemma OnData_decision_witness :
  exists (h' : Host) (os : list HostCall),
    OnData nflx_armed (nflx_host 12 0) = Ok (tt, h') /\
    issued (nflx_host 12 0) h' (os ++ [Log (log_line nflx_armed)]) /\
    ((19 # 2 <= 12)%Q -> (0 <= 0)%Q -> os = [SetHoldings "NFLX" (4 # 5)]) /\
    ((19 # 2 <= 12)%Q -> (0 < 0)%Q ->
       os = [Liquidate "NFLX"; SetHoldings "NFLX" (4 # 5)]) /\
    ((12 < 19 # 2)%Q -> (0 <= 0)%Q ->
       os = [Liquidate "NFLX"; SetHoldings "NFLX" (- (4 # 5))]) /\
    ((12 < 19 # 2)%Q -> (0 < 0)%Q -> os = [SetHoldings "NFLX" (- (4 # 5))]).
Proof.
  apply (OnData_decision nflx_armed (nflx_host 12 0) (19 # 2)
           (mkHolding "NFLX" 12 0)); reflexivity.
Defined.

(** C8: [Initialize] leaves selltrig at [None]; [OnData] on such a state
    raises [TypeError] at the comparison of the price with selltrig, so it
    returns only when selltrig is set, which a completed [SetSignal]
    ensures. *)
Theorem OnData_requires_SetSignal :
  (forall h : Host,
      exists (self0 : Algo) (h0 : Host),
        Initialize h = Ok (self0, h0) /\
        selltrig self0 = None /\
        OnData self0 h0 = Raise TypeError) /\
  (forall (self : Algo) (h : Host) (sec : SecurityHolding),
      selltrig self = None ->
      find_holding (syl self) (Portfolio h) = Some sec ->
      OnData self h = Raise TypeError) /\
  (forall (self : Algo) (h : Host) (r : unit * Host),
      OnData self h = Ok r -> exists t : Q, selltrig self = Some t) /\
  (forall (self self' : Algo) (h h' : Host),
      SetSignal self h = Ok (self', h') ->
      exists t : Q, selltrig self' = Some t).
Proof.
  assert (Hnone : forall (self : Algo) (h : Host) (sec : SecurityHolding),
             selltrig self = None ->
             find_holding (syl self) (Portfolio h) = Some sec ->
             OnData self h = Raise TypeError).
  { intros self h sec Hn Hsec.
    unfold OnData, bind, Portfolio_get, lift, py_ge.
    rewrite Hn. repeat (rewrite Hsec; cbv beta iota). reflexivity. }
  split; [|split; [exact Hnone|split]].
  - intros h.
    destruct (find_holding_add "NFLX" (Portfolio h)) as [sec Hsec].
    eexists. eexists. split; [reflexivity|]. split; [reflexivity|].
    apply (Hnone _ _ sec); [reflexivity | exact Hsec].
  - intros self h r H. destruct (selltrig self) as [t|] eqn:Ht.
    + now exists t.
    + exfalso.
      destruct (find_holding (syl self) (Portfolio h)) as [s|] eqn:Hs.
      * rewrite (Hnone self h s Ht Hs) in H. discriminate.
      * unfold OnData, bind, Portfolio_get in H. rewrite Hs in H.
        discriminate.
  - intros self self' h h' H. unfold SetSignal in H.
    repeat (apply bind_Ok in H; destruct H as (? & ? & _ & H);
            cbv beta zeta in H).
    unfold ret in H. inversion H. simpl. eexists. reflexivity.
Qed.

Lemma OnData_requires_SetSignal_witness :
  OnData nflx_fresh (nflx_host 12 0) = Raise TypeError.
Proof.
  apply (proj1 (proj2 OnData_requires_SetSignal) nflx_fresh (nflx_host 12 0)
           (mkHolding "NFLX" 12 0)); reflexivity.
Defined.

(** C10: changing only buytrig changes no order of [OnData]: the outcome
    has the same orders and the same portfolio, or the same exception;
    buytrig reaches the log line only. *)
Theorem OnData_ignores_buytrig :
  (forall (self : Algo) (h : Host) (b : option Q),
      same_orders (OnData (set_buytrig b self) h) (OnData self h)) /\
  (forall self : Algo, In (Str (buytrig self)) (log_line self)).
Proof.
  split.
  - intros self h b.
    unfold OnData, set_buytrig, bind, Portfolio_get, lift, py_ge, py_lt.
    cbn [syl selltrig].
    destruct (find_holding (syl self) (Portfolio h)) as [sec|] eqn:Hsec;
      [|reflexivity].
    cbv beta iota. repeat (rewrite Hsec; cbv beta iota).
    destruct (selltrig self) as [t|]; [|reflexivity].
    cbv beta iota.
    destruct (Qle_bool t (Price sec)) eqn:Ep;
      destruct (Qle_bool 0 (Quantity sec)) eqn:Eq;
      cbv beta iota; repeat (rewrite Hsec; cbv beta iota);
      rewrite ?Ep; cbv beta iota delta [negb];
      unfold host_SetHoldings, host_Liquidate, emit, ret, same_orders;
      cbv beta iota; cbn [calls Portfolio record_call with_portfolio];
      unfold orders; rewrite !filter_app; simpl; split; reflexivity.
  - intros self. simpl. tauto.
Qed.

End DualThrustFacts.

(** ** Portfolio lookups and updates *)

Lemma py_in_iff (s : string) (l : list string) : py_in s l = true <-> In s l.
Proof.
  unfold py_in. rewrite existsb_exists. split.
  - intros (x & Hx & E). apply String.eqb_eq in E. now subst.
  - intros H. exists s. split; [exact H | apply String.eqb_refl].
Qed.

Lemma find_holding_set_other (s s' : string) (q : Q) (p : list SecurityHolding) :
  s <> s' -> find_holding s' (set_quantity s q p) = find_holding s' p.
Proof.
  intros Hne. unfold find_holding, set_quantity.
  induction p as [|x xs IH]; simpl; [reflexivity|].
  destruct (String.eqb (Symbol x) s) eqn:E1; simpl.
  - apply String.eqb_eq in E1.
    destruct (String.eqb (Symbol x) s') eqn:E2.
    + apply String.eqb_eq in E2. congruence.
    + exact IH.
  - destruct (String.eqb (Symbol x) s'); [reflexivity | exact IH].
Qed.

Lemma find_holding_set_same (s : string) (q : Q) (p : list SecurityHolding)
      (sec : SecurityHolding) :
  find_holding s p = Some sec ->
  find_holding s (set_quantity s q p) = Some (mkHolding (Symbol sec) (Price sec) q).
Proof.
  unfold find_holding, set_quantity.
  induction p as [|x xs IH]; simpl; [discriminate|].
  destruct (String.eqb (Symbol x) s) eqn:E1; simpl; rewrite E1.
  - intros H. inversion H. reflexivity.
  - exact IH.
Qed.

Lemma find_holding_Symbol (s : string) (p : list SecurityHolding)
      (sec : SecurityHolding) :
  find_holding s p = Some sec -> Symbol sec = s /\ In sec p.
Proof.
  unfold find_holding. intros H. apply find_some in H.
  destruct H as [Hin E]. apply String.eqb_eq in E. now split.
Qed.

Lemma find_holding_NoDup (p : list SecurityHolding) (sec : SecurityHolding) :
  NoDup (map Symbol p) -> In sec p -> find_holding (Symbol sec) p = Some sec.
Proof.
  unfold find_holding. induction p as [|x xs IH]; simpl; [tauto|].
  intros Hnd [->|Hin].
  - now rewrite String.eqb_refl.
  - inversion Hnd as [|? ? Hx Hxs]; subst.
    destruct (String.eqb (Symbol x) (Symbol sec)) eqn:E.
    + apply String.eqb_eq in E. exfalso. apply Hx. rewrite E.
      now apply in_map.
    + now apply IH.
Qed.

Lemma find_holding_In (s : string) (p : list SecurityHolding) :
  In s (map Symbol p) -> exists sec, find_holding s p = Some sec.
Proof.
  unfold find_holding. induction p as [|x xs IH]; simpl; [tauto|].
  intros [E|Hin].
  - exists x. apply String.eqb_eq in E. now rewrite E.
  - destruct (String.eqb (Symbol x) s); [now exists x | now apply IH].
Qed.

(** ** The host after a run of orders *)

Lemma liquidate_all_calls (l : list string) (h : Host) :
  calls (liquidate_all l h) = calls h ++ map Liquidate l.
Proof.
  revert h. unfold liquidate_all.
  induction l as [|s l IH]; intros h; simpl.
  - now rewrite app_nil_r.
  - rewrite IH. simpl. now rewrite <- app_assoc.
Qed.

Lemma liquidate_all_other (l : list string) (h : Host) (s : string) :
  ~ In s l ->
  find_holding s (Portfolio (liquidate_all l h)) = find_holding s (Portfolio h).
Proof.
  revert h. unfold liquidate_all.
  induction l as [|x l IH]; intros h Hs; simpl; [reflexivity|].
  rewrite IH by (intro; apply Hs; now right). simpl.
  apply find_holding_set_other. intro; apply Hs; now left.
Qed.

Lemma liquidate_all_closed (l : list string) (h : Host) (s : string)
      (sec : SecurityHolding) :
  In s l -> find_holding s (Portfolio h) = Some sec ->
  find_holding s (Portfolio (liquidate_all l h))
  = Some (mkHolding (Symbol sec) (Price sec) 0).
Proof.
  revert h sec. unfold liquidate_all.
  induction l as [|x l IH]; intros h sec Hin Hf; simpl; [destruct Hin|].
  destruct (string_dec x s) as [->|Hne].
  - pose proof (find_holding_set_same s 0 _ _ Hf) as H1.
    destruct (in_dec string_dec s l) as [Hl|Hl].
    + rewrite (IH (liquidated s h) _ Hl H1). reflexivity.
    + fold (liquidate_all l (liquidated s h)).
      rewrite (liquidate_all_other l _ s Hl). exact H1.
  - destruct Hin as [E|Hin]; [congruence|].
    apply IH; [exact Hin|]. simpl.
    rewrite find_holding_set_other by exact Hne. exact Hf.
Qed.

Lemma set_all_calls (w : Q) (l : list string) (h : Host) :
  calls (set_all w l h) = calls h ++ map (fun s => SetHoldings s w) l.
Proof.
  revert h. unfold set_all.
  induction l as [|s l IH]; intros h; simpl.
  - now rewrite app_nil_r.
  - rewrite IH. simpl. now rewrite <- app_assoc.
Qed.

Lemma set_all_other (w : Q) (l : list string) (h : Host) (s : string) :
  ~ In s l ->
  find_holding s (Portfolio (set_all w l h)) = find_holding s (Portfolio h).
Proof.
  revert h. unfold set_all.
  induction l as [|x l IH]; intros h Hs; simpl; [reflexivity|].
  rewrite IH by (intro; apply Hs; now right). simpl.
  apply find_holding_set_other. intro; apply Hs; now left.
Qed.

(** ** Momentum rotation *)

Section MomentumFacts.

Import Momentum.

Variable sort_values : bool -> list (string * Q) -> list (string * Q).

(** The first loop of [Rebalance], over a part [l] of the portfolio whose
    holdings are still as the host has them. *)
Lemma liquidation_loop (top : list string) (l : list SecurityHolding) :
  forall h : Host,
    NoDup (map Symbol l) ->
    (forall sec, In sec l ->
                 find_holding (Symbol sec) (Portfolio h) = Some sec) ->
    for_each (map Symbol l)
      (fun key =>
         security_hold <- Portfolio_get key ;;
         if Invested security_hold && negb (py_in (Symbol security_hold) top)
         then host_Liquidate (Symbol security_hold)
         else ret tt)%py h
    = Ok (tt, liquidate_all (to_liquidate top l) h).
Proof.
  induction l as [|sec l IH]; intros h Hnd Hf; [reflexivity|].
  inversion Hnd as [|? ? Hsec Hl]; subst.
  cbn [map for_each]. unfold bind at 1. unfold bind at 1.
  unfold Portfolio_get at 1. rewrite (Hf sec) by now left.
  unfold to_liquidate. cbn [filter].
  destruct (Invested sec && negb (py_in (Symbol sec) top)).
  - unfold host_Liquidate at 1. cbn [map liquidate_all fold_left].
    rewrite IH; [reflexivity | exact Hl |].
    intros sec' Hin. cbn [Portfolio record_call with_portfolio].
    rewrite find_holding_set_other; [apply Hf; now right|].
    intro E. apply Hsec. rewrite E. now apply in_map.
  - unfold ret at 1. rewrite IH; [reflexivity | exact Hl |].
    intros sec' Hin. apply Hf. now right.
Qed.

(** The second loop collects the symbols of [top] that are not invested. *)
Lemma collection_loop (l : list string) :
  forall (acc : list string) (h : Host),
    (forall s, In s l -> In s (map Symbol (Portfolio h))) ->
    for_fold l
      (fun added symbol =>
         sec <- Portfolio_get symbol ;;
         if negb (Invested sec) then ret (added ++ [symbol]) else ret added)%py
      acc h
    = Ok (acc ++ to_add l (Portfolio h), h).
Proof.
  induction l as [|s l IH]; intros acc h Hin.
  - cbn. now rewrite app_nil_r.
  - cbn [for_fold]. unfold bind at 1. unfold bind at 1.
    unfold Portfolio_get at 1.
    destruct (find_holding_In s (Portfolio h)) as [sec Hs];
      [apply Hin; now left|].
    unfold to_add. cbn [filter]. rewrite Hs.
    destruct (negb (Invested sec)); unfold ret at 1.
    + rewrite IH by (intros; apply Hin; now right).
      unfold to_add. now rewrite <- app_assoc.
    + apply IH. intros; apply Hin; now right.
Qed.

(** The third loop: one [SetHoldings] per collected symbol, at the weight
    1/n; the division is only reached with a non-empty list. *)
Lemma holdings_loop (n : nat) (l : list string) :
  forall h : Host,
    (l <> [] -> n <> O) ->
    for_each l
      (fun added => w <- lift (py_div 1 n) ;; host_SetHoldings added w)%py h
    = Ok (tt, set_all (1 / inject_Z (Z.of_nat n)) l h).
Proof.
  induction l as [|s l IH]; intros h Hn; [reflexivity|].
  cbn [for_each]. unfold bind at 1. unfold bind at 1.
  destruct n as [|n]; [exfalso; now apply Hn|].
  unfold py_div, lift at 1, host_SetHoldings at 1.
  rewrite IH by discriminate. reflexivity.
Qed.

(** Symbols of [top] are not among those liquidated. *)
Lemma to_liquidate_not_top (top : list string) (p : list SecurityHolding)
      (s : string) :
  In s (to_liquidate top p) -> ~ In s top.
Proof.
  unfold to_liquidate. rewrite in_map_iff.
  intros (sec & <- & Hf) Htop. apply filter_In in Hf.
  destruct Hf as [_ Hc]. apply andb_true_iff in Hc.
  destruct Hc as [_ Hc]. apply py_in_iff in Htop.
  rewrite Htop in Hc. discriminate.
Qed.

Lemma to_add_after_liquidation (top : list string) (h : Host) :
  to_add top (Portfolio (liquidate_all (to_liquidate top (Portfolio h)) h))
  = to_add top (Portfolio h).
Proof.
  unfold to_add. apply filter_ext_in. intros s Hs.
  rewrite liquidate_all_other; [reflexivity|].
  intro H. exact (to_liquidate_not_top _ _ _ H Hs).
Qed.

(** [Rebalance] outside warm-up, as one run of orders. *)
Lemma Rebalance_run (self : Algo) (h : Host) :
  IsWarmingUp h = false ->
  NoDup (map Symbol (Portfolio h)) ->
  incl (top_index sort_values self h) (map Symbol (Portfolio h)) ->
  let top := top_index sort_values self h in
  let added := to_add top (Portfolio h) in
  Rebalance sort_values self h
  = Ok (tt, set_all (1 / inject_Z (Z.of_nat (List.length added))) added
              (liquidate_all (to_liquidate top (Portfolio h)) h)).
Proof.
  intros Hw Hnd Hincl top added.
  unfold Rebalance. unfold bind at 1. unfold ask. rewrite Hw.
  fold top. unfold bind at 1.
  rewrite liquidation_loop;
    [| exact Hnd | intros sec Hin; now apply find_holding_NoDup].
  unfold bind at 1.
  rewrite collection_loop.
  - rewrite to_add_after_liquidation. cbn [app]. fold added.
    apply holdings_loop. intros Hne Hz.
    apply length_zero_iff_nil in Hz. contradiction.
  - intros s Hs.
    destruct (find_holding_In s (Portfolio h) (Hincl s Hs)) as [sec Hsec].
    rewrite <- (liquidate_all_other (to_liquidate top (Portfolio h)) h s)
      in Hsec by (intro H; exact (to_liquidate_not_top _ _ _ H Hs)).
    apply find_holding_Symbol in Hsec. destruct Hsec as [<- Hin].
    now apply in_map.
Qed.

Lemma nodupb_sound (l : list string) : nodupb l = true -> NoDup l.
Proof.
  induction l as [|x xs IH]; simpl; intros H; constructor;
    apply andb_true_iff in H; destruct H as [Hx Hxs].
  - intro Hin. apply py_in_iff in Hin. rewrite Hin in Hx. discriminate.
  - now apply IH.
Qed.

Lemma inclb_sound (l1 l2 : list string) : inclb l1 l2 = true -> incl l1 l2.
Proof.
  unfold inclb. rewrite forallb_forall. intros H s Hs.
  apply py_in_iff. now apply H.
Qed.

Lemma to_liquidate_iff (top : list string) (p : list SecurityHolding)
      (s : string) :
  NoDup (map Symbol p) ->
  (In s (to_liquidate top p) <-> invested_in p s /\ ~ In s top).
Proof.
  intros Hnd. unfold to_liquidate, invested_in. rewrite in_map_iff. split.
  - intros (sec & <- & Hf). apply filter_In in Hf. destruct Hf as [Hin Hc].
    apply andb_true_iff in Hc. destruct Hc as [Hi Ht]. split.
    + exists sec. split; [now apply find_holding_NoDup | exact Hi].
    + intro H. apply py_in_iff in H. rewrite H in Ht. discriminate.
  - intros [(sec & Hf & Hi) Ht].
    apply find_holding_Symbol in Hf. destruct Hf as [<- Hin].
    exists sec. split; [reflexivity|]. apply filter_In. split; [exact Hin|].
    rewrite Hi. simpl. destruct (py_in (Symbol sec) top) eqn:E;
      [|reflexivity].
    apply py_in_iff in E. contradiction.
Qed.

Lemma to_add_iff (top : list string) (p : list SecurityHolding) (s : string) :
  incl top (map Symbol p) ->
  (In s (to_add top p) <-> In s top /\ ~ invested_in p s).
Proof.
  intros Hincl. unfold to_add, invested_in. rewrite filter_In. split.
  - intros [Hs Hc]. split; [exact Hs|]. intros (sec & Hf & Hi).
    rewrite Hf, Hi in Hc. discriminate.
  - intros [Hs Hn]. split; [exact Hs|].
    destruct (find_holding_In s p (Hincl s Hs)) as [sec Hf]. rewrite Hf.
    destruct (Invested sec) eqn:Hi; [|reflexivity].
    exfalso. apply Hn. now exists sec.
Qed.

(** C9: while the host is warming up, [Rebalance] returns at once: the
    host is the one it was called in, with no call recorded and the
    portfolio as it was. *)
Theorem Rebalance_during_warmup :
  forall (self : Algo) (h : Host),
    IsWarmingUp h = true ->
    Rebalance sort_values self h = Ok (tt, h).
Proof.
  intros self h Hw. unfold Rebalance, bind, ask. now rewrite Hw.
Qed.

(** C6: outside warm-up [Rebalance] calls [Liquidate] on exactly the
    symbols that are invested and not in the top 9; no symbol of the top 9
    is liquidated. *)
Theorem Rebalance_liquidates :
  forall (self : Algo) (h : Host),
    IsWarmingUp h = false ->
    NoDup (map Symbol (Portfolio h)) ->
    incl (top_index sort_values self h) (map Symbol (Portfolio h)) ->
    exists (h' : Host) (cs : list HostCall),
      Rebalance sort_values self h = Ok (tt, h') /\
      issued h h' cs /\
      (forall s : string,
          In (Liquidate s) cs <->
          invested_in (Portfolio h) s /\
          ~ In s (top_index sort_values self h)) /\
      (forall s : string,
          In s (top_index sort_values self h) -> ~ In (Liquidate s) cs).
Proof.
  intros self h Hw Hnd Hincl.
  pose proof (Rebalance_run self h Hw Hnd Hincl) as Hrun. cbv zeta in Hrun.
  set (top := top_index sort_values self h) in *.
  set (added := to_add top (Portfolio h)) in *.
  set (w := (1 / inject_Z (Z.of_nat (List.length added)))%Q) in *.
  assert (Hliq : forall s,
             In (Liquidate s)
                (map Liquidate (to_liquidate top (Portfolio h))
                 ++ map (fun s0 => SetHoldings s0 w) added)
             <-> In s (to_liquidate top (Portfolio h))).
  { intros s. rewrite in_app_iff, !in_map_iff. split.
    - intros [(x & E & Hx)|(x & E & _)]; [|discriminate].
      inversion E. now subst.
    - intros H. left. now exists s. }
  eexists. eexists. split; [exact Hrun|]. split.
  - unfold issued. rewrite set_all_calls, liquidate_all_calls.
    now rewrite <- app_assoc.
  - split.
    + intros s. rewrite Hliq. now apply to_liquidate_iff.
    + intros s Hs H. apply Hliq in H.
      exact (to_liquidate_not_top _ _ _ H Hs).
Qed.

(** C4, as the code has it: outside warm-up [Rebalance] closes the
    invested holdings outside the top 9 and then calls [SetHoldings] on
    the symbols of the top 9 that are not invested, each at the weight 1/k
    for the k symbols so added, which is 1/9 when there are nine of them.
    Afterwards nothing outside the top 9 is invested, and the holdings of
    the top 9 that were invested are as they were. *)
Theorem Rebalance_rotation :
  forall (self : Algo) (h : Host),
    IsWarmingUp h = false ->
    NoDup (map Symbol (Portfolio h)) ->
    incl (top_index sort_values self h) (map Symbol (Portfolio h)) ->
    exists (h' : Host) (added : list string),
      Rebalance sort_values self h = Ok (tt, h') /\
      issued h h'
        (map Liquidate
             (to_liquidate (top_index sort_values self h) (Portfolio h))
         ++ map (fun s =>
                   SetHoldings s (1 / inject_Z (Z.of_nat (List.length added))))
                added) /\
      (forall s : string,
          In s added <->
          In s (top_index sort_values self h) /\
          ~ invested_in (Portfolio h) s) /\
      (List.length added = 9%nat ->
       forall s : string, In s added -> In (SetHoldings s (1 # 9)) (calls h')) /\
      (forall s : string,
          ~ In s (top_index sort_values self h) ->
          ~ invested_in (Portfolio h') s) /\
      (forall s : string,
          In s (top_index sort_values self h) ->
          invested_in (Portfolio h) s ->
          find_holding s (Portfolio h') = find_holding s (Portfolio h)).
Proof.
  intros self h Hw Hnd Hincl.
  pose proof (Rebalance_run self h Hw Hnd Hincl) as Hrun. cbv zeta in Hrun.
  set (top := top_index sort_values self h) in *.
  set (added := to_add top (Portfolio h)) in *.
  assert (Hadd : forall s, In s added <-> In s top /\ ~ invested_in (Portfolio h) s)
    by (intros s; now apply to_add_iff).
  assert (Hcalls :
            issued h
              (set_all (1 / inject_Z (Z.of_nat (List.length added))) added
                 (liquidate_all (to_liquidate top (Portfolio h)) h))
              (map Liquidate (to_liquidate top (Portfolio h))
               ++ map (fun s =>
                         SetHoldings s
                           (1 / inject_Z (Z.of_nat (List.length added))))
                      added)).
  { unfold issued. rewrite set_all_calls, liquidate_all_calls.
    now rewrite <- app_assoc. }
  eexists. exists added. split; [exact Hrun|].
  split; [exact Hcalls|]. split; [exact Hadd|]. split; [|split].
  - intros H9 s Hs. rewrite Hcalls, H9.
    apply in_or_app. right. apply in_or_app. right.
    apply in_map_iff. exists s. split; [reflexivity | exact Hs].
  - intros s Hs (sec & Hf & Hi).
    rewrite set_all_other in Hf by (intro H; apply Hadd in H; tauto).
    destruct (in_dec string_dec s (to_liquidate top (Portfolio h)))
      as [Hl|Hl].
    + assert (Hin : In s (map Symbol (Portfolio h))).
      { unfold to_liquidate in Hl. apply in_map_iff in Hl.
        destruct Hl as (x & <- & Hx). apply filter_In in Hx.
        apply in_map. tauto. }
      destruct (find_holding_In _ _ Hin) as [sec0 Hf0].
      rewrite (liquidate_all_closed _ h s sec0 Hl Hf0) in Hf.
      inversion Hf; subst. discriminate Hi.
    + rewrite liquidate_all_other in Hf by exact Hl.
      apply Hl. apply to_liquidate_iff; [exact Hnd|]. split; [|exact Hs].
      now exists sec.
  - intros s Hs Hinv.
    rewrite set_all_other by (intro H; apply Hadd in H; tauto).
    apply liquidate_all_other. intro H.
    exact (to_liquidate_not_top _ _ _ H Hs).
Qed.

End MomentumFacts.

(** *** Runs on the example states *)

Lemma rot_host_NoDup (w : bool) (l : list string) :
  NoDup (map Symbol (Portfolio (rot_host w l))).
Proof.
  unfold rot_host, held. cbn [Portfolio]. rewrite map_map. cbn [Symbol].
  rewrite map_id. apply nodupb_sound. vm_compute. reflexivity.
Qed.

Lemma rot_host_top (w : bool) (l : list string) :
  incl (Momentum.top_index Momentum.insertion_sort rot_self (rot_host w l))
       (map Symbol (Portfolio (rot_host w l))).
Proof.
  unfold rot_host, held. cbn [Portfolio]. rewrite map_map. cbn [Symbol].
  rewrite map_id. apply inclb_sound. vm_compute. reflexivity.
Qed.

Lemma Rebalance_during_warmup_witness :
  Momentum.Rebalance Momentum.insertion_sort rot_self (rot_host true eight_held)
  = Ok (tt, rot_host true eight_held).
Proof.
  apply (Rebalance_during_warmup Momentum.insertion_sort rot_self
           (rot_host true eight_held)).
  reflexivity.
Defined.

Lemma Rebalance_liquidates_witness :
  exists (h' : Host) (cs : list HostCall),
    Momentum.Rebalance Momentum.insertion_sort rot_self
                       (rot_host false eight_held) = Ok (tt, h') /\
    issued (rot_host false eight_held) h' cs /\
    (forall s : string,
        In (Liquidate s) cs <->
        invested_in (Portfolio (rot_host false eight_held)) s /\
        ~ In s (Momentum.top_index Momentum.insertion_sort rot_self
                                   (rot_host false eight_held))) /\
    (forall s : string,
        In s (Momentum.top_index Momentum.insertion_sort rot_self
                                 (rot_host false eight_held)) ->
        ~ In (Liquidate s) cs).
Proof.
  apply (Rebalance_liquidates Momentum.insertion_sort rot_self
           (rot_host false eight_held)).
  - reflexivity.
  - apply rot_host_NoDup.
  - apply rot_host_top.
Defined.

Lemma Rebalance_rotation_witness :
  exists (h' : Host) (added : list string),
    Momentum.Rebalance Momentum.insertion_sort rot_self
                       (rot_host false eight_held) = Ok (tt, h') /\
    issued (rot_host false eight_held) h'
      (map Liquidate
           (to_liquidate
              (Momentum.top_index Momentum.insertion_sort rot_self
                                  (rot_host false eight_held))
              (Portfolio (rot_host false eight_held)))
       ++ map (fun s =>
                 SetHoldings s (1 / inject_Z (Z.of_nat (List.length added))))
              added) /\
    (forall s : string,
        In s added <->
        In s (Momentum.top_index Momentum.insertion_sort rot_self
                                 (rot_host false eight_held)) /\
        ~ invested_in (Portfolio (rot_host false eight_held)) s) /\
    (List.length added = 9%nat ->
     forall s : string, In s added -> In (SetHoldings s (1 # 9)) (calls h')) /\
    (forall s : string,
        ~ In s (Momentum.top_index Momentum.insertion_sort rot_self
                                   (rot_host false eight_held)) ->
        ~ invested_in (Portfolio h') s) /\
    (forall s : string,
        In s (Momentum.top_index Momentum.insertion_sort rot_self
                                 (rot_host false eight_held)) ->
        invested_in (Portfolio (rot_host false eight_held)) s ->
        find_holding s (Portfolio h')
        = find_holding s (Portfolio (rot_host false eight_held))).
Proof.
  apply (Rebalance_rotation Momentum.insertion_sort rot_self
           (rot_host false eight_held)).
  - reflexivity.
  - apply rot_host_NoDup.
  - apply rot_host_top.
Defined.

(** C4 as stated fails: with eight of the top nine held, [Rebalance] gives
    the ninth, HD, the target weight 1, not 1/9. *)
Lemma Rebalance_not_equally_weighted :
  ~ holds_top9_equally Momentum.insertion_sort rot_self
                       (rot_host false eight_held).
Proof.
  intros H.
  destruct (H (set_all 1 ["HD"] (liquidate_all ["IVV"] (rot_host false eight_held)))
              ltac:(vm_compute; reflexivity) "HD" ltac:(vm_compute; tauto))
    as (w & Hw & Hq).
  vm_compute in Hw. inversion Hw; subst. vm_compute in Hq. discriminate Hq.
Qed.

(** ** [Initialize] of the momentum script *)

Lemma registration_loop (l : list string) :
  forall (d : list (string * Indicator)) (h : Host),
    for_fold l
      (fun d0 symbol =>
         host_AddEquity symbol Daily ;;;
         ind <- host_MOM symbol Momentum.period Daily ;;
         ret (setitem d0 symbol ind))%py
      d h
    = Ok (fold_left
            (fun d0 s => setitem d0 s (mkIndicator s Momentum.period Daily)) l d,
          register_all l h).
Proof.
  induction l as [|s l IH]; intros d h; [reflexivity|].
  cbn [for_fold]. unfold bind at 1.
  unfold bind at 1, host_AddEquity at 1. unfold bind at 1.
  unfold host_MOM at 1, bind at 1, emit at 1, ret at 1, ret at 1.
  rewrite IH. reflexivity.
Qed.

Lemma register_all_calls (l : list string) (h : Host) :
  calls (register_all l h)
  = calls h
    ++ flat_map (fun s => [AddEquity s Daily; MOM s Momentum.period Daily]) l.
Proof.
  revert h. unfold register_all.
  induction l as [|s l IH]; intros h; cbn [fold_left flat_map].
  - now rewrite app_nil_r.
  - rewrite IH. cbn [calls record_call with_portfolio].
    rewrite <- !app_assoc. reflexivity.
Qed.

Lemma momentum_Initialize_run (h : Host) :
  exists h' : Host,
    Momentum.Initialize h = Ok (rot_self, h') /\
    issued h h' momentum_init_calls.
Proof.
  unfold Momentum.Initialize.
  unfold bind at 1, emit at 1. unfold bind at 1, emit at 1.
  unfold bind at 1, emit at 1. unfold bind at 1, emit at 1.
  unfold bind at 1. rewrite registration_loop.
  unfold bind at 1, emit at 1, ret.
  eexists. split; [reflexivity|].
  unfold issued, momentum_init_calls.
  cbn [calls record_call]. rewrite register_all_calls.
  cbn [calls record_call]. rewrite <- !app_assoc. reflexivity.
Qed.

(** ** Sorting by score *)

Lemma insert_by_perm (asc : bool) (x : string * Q) (l : list (string * Q)) :
  Permutation (Momentum.insert_by asc x l) (x :: l).
Proof.
  induction l as [|y ys IH]; simpl; [apply Permutation_refl|].
  destruct (Momentum.before asc y x).
  - apply Permutation_trans with (y :: x :: ys).
    + now apply perm_skip.
    + apply perm_swap.
  - apply Permutation_refl.
Qed.

Lemma insertion_sort_perm (asc : bool) (l : list (string * Q)) :
  Permutation (Momentum.insertion_sort asc l) l.
Proof.
  unfold Momentum.insertion_sort.
  induction l as [|x xs IH]; simpl; [apply perm_nil|].
  apply Permutation_trans with (x :: fold_right (Momentum.insert_by asc) [] xs).
  - apply insert_by_perm.
  - now apply perm_skip.
Qed.

Lemma StronglySorted_app_le {A : Type} (R : A -> A -> Prop) (l1 l2 : list A) :
  StronglySorted R (l1 ++ l2) ->
  forall a b, In a l1 -> In b l2 -> R a b.
Proof.
  induction l1 as [|x xs IH]; intros Hs a b Ha Hb; [destruct Ha|].
  simpl in Hs. inversion Hs as [|? ? Hxs Hx]; subst.
  destruct Ha as [<-|Ha].
  - rewrite Forall_forall in Hx. apply Hx. apply in_or_app. now right.
  - now apply IH.
Qed.

(** ** The scripts as a whole *)

(** C3, on the code: [Initialize] registers [Rebalance] under the date rule
    [EveryDay] of IVV and no other; that rule selects a trading day whatever
    the month of the day before, where a month-start rule does not select a
    day within the month. *)
Theorem Rebalance_scheduled_every_day :
  (forall h : Host,
      exists (self : Momentum.Algo) (h' : Host),
        Momentum.Initialize h = Ok (self, h') /\
        issued h h' momentum_init_calls) /\
  scheduled momentum_init_calls
  = [(EveryDay "IVV", AfterMarketOpen "IVV" 0, MRebalance)] /\
  (forall prev_month this_month : Z,
      date_rule_fires (EveryDay "IVV") prev_month this_month = true) /\
  date_rule_fires (MonthStart "IVV") 3 3 = false.
Proof.
  split; [|split; [vm_compute; reflexivity | split; reflexivity]].
  intros h. destruct (momentum_Initialize_run h) as (h' & Hrun & Hcalls).
  exists rot_self, h'. split; assumption.
Qed.

(** C7: each class defines [Initialize] and [OnData] besides its scheduled
    method, and [Initialize] hands exactly that method to [Schedule.On]:
    [SetSignal] in the Dual Thrust script, [Rebalance] in the rotation. *)
Theorem lifecycle_callbacks :
  (In MInitialize DualThrust.methods /\ In MSetSignal DualThrust.methods /\
   In MOnData DualThrust.methods) /\
  (In MInitialize Momentum.methods /\ In MRebalance Momentum.methods /\
   In MOnData Momentum.methods) /\
  (forall h : Host,
      exists (self : DualThrust.Algo) (h' : Host) (cs : list HostCall),
        DualThrust.Initialize h = Ok (self, h') /\
        issued h h' cs /\
        map snd (scheduled cs) = [MSetSignal]) /\
  (forall h : Host,
      exists (self : Momentum.Algo) (h' : Host) (cs : list HostCall),
        Momentum.Initialize h = Ok (self, h') /\
        issued h h' cs /\
        map snd (scheduled cs) = [MRebalance]) /\
  (forall (self : Momentum.Algo) (h : Host), Momentum.OnData self h = Ok (tt, h)).
Proof.
  split; [simpl; tauto|]. split; [simpl; tauto|]. split; [|split].
  - intros h. eexists. eexists.
    exists [SetStartDate 2010 1 1; SetEndDate 2018 8 31; SetCash 100000;
            AddSecurity Equity "NFLX" Hour;
            ScheduleOn (EveryDay "NFLX") (AfterMarketOpen "NFLX" 0) MSetSignal].
    split; [reflexivity|]. split; [|reflexivity].
    unfold issued. cbn [calls record_call with_portfolio].
    rewrite <- !app_assoc. reflexivity.
  - intros h. destruct (momentum_Initialize_run h) as (h' & Hrun & Hcalls).
    exists rot_self, h', momentum_init_calls.
    split; [exact Hrun|]. split; [exact Hcalls | vm_compute; reflexivity].
  - reflexivity.
Qed.

(** ** Further facts: exceptions of the runtime *)

Lemma getitem_raises {V : Type} (tbl : list (string * V)) (key : string)
      (e : PyError) :
  getitem tbl key = Raise e -> e = KeyError.
Proof.
  induction tbl as [|[k v] rest IH]; simpl.
  - intros H. now inversion H.
  - destruct (String.eqb k key); [discriminate | exact IH].
Qed.

Lemma py_max_Ok (l : Series) (m : Q) : py_max l = Ok m -> l <> [].
Proof. destruct l; [discriminate | intros _; discriminate]. Qed.

Lemma py_min_Ok (l : Series) (m : Q) : py_min l = Ok m -> l <> [].
Proof. destruct l; [discriminate | intros _; discriminate]. Qed.

(** ** Further facts: Dual Thrust *)

Section DualThrustMore.

Import DualThrust.

(** Everything a returning [SetSignal] has read and computed. *)
Lemma SetSignal_Ok_inv (self self' : Algo) (h h' : Host) :
  SetSignal self h = Ok (self', h') ->
  h' = h /\
  exists (frame : Frame) (highs lows closes : Series) (sec : SecurityHolding)
         (HH HC LC LL : Q),
    getitem (History h [syl self] 4 Daily) (syl self) = Ok frame /\
    getitem frame "high" = Ok highs /\
    getitem frame "low" = Ok lows /\
    getitem frame "close" = Ok closes /\
    find_holding (syl self) (Portfolio h) = Some sec /\
    py_max highs = Ok HH /\ py_max closes = Ok HC /\
    py_min closes = Ok LC /\ py_min lows = Ok LL /\
    self' = mkAlgo (syl self)
                   (Some (Price sec - (1 # 2) * signalrange HH HC LC LL)%Q)
                   (Some (Price sec + (1 # 2) * signalrange HH HC LC LL)%Q)
                   (Some (Price sec))
                   (Some highs) (Some lows) (Some closes).
Proof.
  unfold SetSignal, bind, lift, ask, Portfolio_get, ret. cbv beta zeta iota.
  destruct (getitem (History h [syl self] 4 Daily) (syl self))
    as [frame|] eqn:Hf; cbv beta iota; [|discriminate].
  destruct (getitem frame "high") as [highs|] eqn:Hh; cbv beta iota;
    [|discriminate].
  destruct (getitem frame "low") as [lows|] eqn:Hl; cbv beta iota;
    [|discriminate].
  destruct (getitem frame "close") as [closes|] eqn:Hc; cbv beta iota;
    [|discriminate].
  destruct (find_holding (syl self) (Portfolio h)) as [sec|] eqn:Hs;
    cbv beta iota; [|discriminate].
  destruct (py_max highs) as [HH|] eqn:EHH; cbv beta iota; [|discriminate].
  destruct (py_max closes) as [HC|] eqn:EHC; cbv beta iota; [|discriminate].
  destruct (py_min closes) as [LC|] eqn:ELC; cbv beta iota; [|discriminate].
  destruct (py_min lows) as [LL|] eqn:ELL; cbv beta iota; [|discriminate].
  intros H. inversion H; subst. split; [reflexivity|].
  exists frame, highs, lows, closes, sec, HH, HC, LC, LL.
  repeat (split; [first [reflexivity | assumption]|]). reflexivity.
Qed.

(** X1: [SetSignal] returns exactly when the history has a frame for the
    symbol with non-empty columns high, low and close, and the symbol has a
    holding. *)
Theorem SetSignal_returns_iff :
  forall (self : Algo) (h : Host),
    (exists (self' : Algo) (h' : Host), SetSignal self h = Ok (self', h')) <->
    (exists (frame : Frame) (highs lows closes : Series)
            (sec : SecurityHolding),
        getitem (History h [syl self] 4 Daily) (syl self) = Ok frame /\
        getitem frame "high" = Ok highs /\
        getitem frame "low" = Ok lows /\
        getitem frame "close" = Ok closes /\
        highs <> [] /\ lows <> [] /\ closes <> [] /\
        find_holding (syl self) (Portfolio h) = Some sec).
Proof.
  intros self h. split.
  - intros (self' & h' & H). apply SetSignal_Ok_inv in H.
    destruct H as (_ & frame & highs & lows & closes & sec & HH & HC & LC & LL
                   & Hf & Hh & Hl & Hc & Hs & EHH & EHC & ELC & ELL & _).
    exists frame, highs, lows, closes, sec.
    repeat (split; [assumption|]).
    split; [exact (py_max_Ok _ _ EHH)|].
    split; [exact (py_min_Ok _ _ ELL)|].
    split; [exact (py_max_Ok _ _ EHC) | exact Hs].
  - intros (frame & highs & lows & closes & sec
            & Hf & Hh & Hl & Hc & Nh & Nl & Nc & Hs).
    destruct (py_max_spec highs Nh) as (HH & EHH & _).
    destruct (py_max_spec closes Nc) as (HC & EHC & _).
    destruct (py_min_spec closes Nc) as (LC & ELC & _).
    destruct (py_min_spec lows Nl) as (LL & ELL & _).
    unfold SetSignal, bind, lift, ask, Portfolio_get, ret.
    cbv beta zeta iota.
    rewrite Hf. cbv beta iota. rewrite Hh, Hl, Hc. cbv beta iota.
    rewrite Hs. cbv beta iota. rewrite EHH, EHC, ELC, ELL.
    eexists. eexists. reflexivity.
Qed.

Lemma SetSignal_returns_iff_witness :
  exists (self' : Algo) (h' : Host),
    SetSignal nflx_fresh (nflx_host 12 0) = Ok (self', h').
Proof.
  apply (proj2 (SetSignal_returns_iff nflx_fresh (nflx_host 12 0))).
  exists [("high", [10; 12; 11; 13]%Q); ("low", [8; 9; 7; 10]%Q);
          ("close", [9; 11; 10; 12]%Q)],
         [10; 12; 11; 13]%Q, [8; 9; 7; 10]%Q, [9; 11; 10; 12]%Q,
         (mkHolding "NFLX" 12 0).
  repeat (split; [first [reflexivity | discriminate]|]). reflexivity.
Defined.

(** X2: [SetSignal] raises nothing but [KeyError] and [ValueError]:
    [KeyError] when the history has no frame for the symbol, [ValueError]
    when the frame is there with an empty high column. *)
Theorem SetSignal_raises :
  (forall (self : Algo) (h : Host) (e : PyError),
      SetSignal self h = Raise e -> e = KeyError \/ e = ValueError) /\
  (forall (self : Algo) (h : Host) (e : PyError),
      getitem (History h [syl self] 4 Daily) (syl self) = Raise e ->
      SetSignal self h = Raise KeyError) /\
  (forall (self : Algo) (h : Host) (frame : Frame) (lows closes : Series)
          (sec : SecurityHolding),
      getitem (History h [syl self] 4 Daily) (syl self) = Ok frame ->
      getitem frame "high" = Ok [] ->
      getitem frame "low" = Ok lows ->
      getitem frame "close" = Ok closes ->
      find_holding (syl self) (Portfolio h) = Some sec ->
      SetSignal self h = Raise ValueError).
Proof.
  split; [|split].
  - intros self h e.
    unfold SetSignal, bind, lift, ask, Portfolio_get, ret.
    cbv beta zeta iota.
    destruct (getitem (History h [syl self] 4 Daily) (syl self))
      as [frame|e0] eqn:Hf; cbv beta iota;
      [|intros H; inversion H; subst; left; exact (getitem_raises _ _ _ Hf)].
    destruct (getitem frame "high") as [highs|e0] eqn:Hh; cbv beta iota;
      [|intros H; inversion H; subst; left; exact (getitem_raises _ _ _ Hh)].
    destruct (getitem frame "low") as [lows|e0] eqn:Hl; cbv beta iota;
      [|intros H; inversion H; subst; left; exact (getitem_raises _ _ _ Hl)].
    destruct (getitem frame "close") as [closes|e0] eqn:Hc; cbv beta iota;
      [|intros H; inversion H; subst; left; exact (getitem_raises _ _ _ Hc)].
    destruct (find_holding (syl self) (Portfolio h)) as [sec|] eqn:Hs;
      cbv beta iota; [|intros H; inversion H; now left].
    destruct highs as [|x xs]; cbn [py_max]; cbv beta iota;
      [intros H; inversion H; now right|].
    destruct closes as [|y ys]; cbn [py_max py_min]; cbv beta iota;
      [intros H; inversion H; now right|].
    destruct lows as [|z zs]; cbn [py_min]; cbv beta iota;
      [intros H; inversion H; now right | discriminate].
  - intros self h e Hf.
    pose proof (getitem_raises _ _ _ Hf) as ->.
    unfold SetSignal, bind, lift, ask. cbv beta zeta iota.
    rewrite Hf. reflexivity.
  - intros self h frame lows closes sec Hf Hh Hl Hc Hs.
    unfold SetSignal, bind, lift, ask, Portfolio_get, ret.
    cbv beta zeta iota.
    rewrite Hf. cbv beta iota. rewrite Hh, Hl, Hc. cbv beta iota.
    rewrite Hs. reflexivity.
Qed.

Lemma SetSignal_raises_witness :
  SetSignal nflx_fresh no_history_host = Raise KeyError /\
  SetSignal nflx_fresh empty_column_host = Raise ValueError.
Proof.
  split.
  - apply (proj1 (proj2 SetSignal_raises) nflx_fresh no_history_host KeyError).
    reflexivity.
  - apply (proj2 (proj2 SetSignal_raises) nflx_fresh empty_column_host
             [("high", []); ("low", [8]%Q); ("close", [9]%Q)]
             [8]%Q [9]%Q (mkHolding "NFLX" 12 0)); reflexivity.
Defined.

(** X3: a returning [SetSignal] has placed no order and changed nothing in
    the host; it keeps the symbol and stores the three columns it read. *)
Theorem SetSignal_reads_only :
  forall (self self' : Algo) (h h' : Host),
    SetSignal self h = Ok (self', h') ->
    h' = h /\ syl self' = syl self /\
    exists (frame : Frame) (highs lows closes : Series),
      getitem (History h [syl self] 4 Daily) (syl self) = Ok frame /\
      getitem frame "high" = Ok highs /\ high self' = Some highs /\
      getitem frame "low" = Ok lows /\ low self' = Some lows /\
      getitem frame "close" = Ok closes /\ close self' = Some closes.
Proof.
  intros self self' h h' H. apply SetSignal_Ok_inv in H.
  destruct H as (Hh' & frame & highs & lows & closes & sec & HH & HC & LC & LL
                 & Hf & Hh & Hl & Hc & Hs & EHH & EHC & ELC & ELL & ->).
  split; [exact Hh'|]. split; [reflexivity|].
  exists frame, highs, lows, closes. cbn [high low close].
  repeat (split; [first [assumption | reflexivity]|]). reflexivity.
Qed.

Lemma SetSignal_reads_only_witness :
  nflx_host 12 0 = nflx_host 12 0 /\
  syl (mkAlgo "NFLX" (Some (19 # 2)%Q) (Some (29 # 2)%Q) (Some 12%Q)
              (Some [10; 12; 11; 13]%Q) (Some [8; 9; 7; 10]%Q)
              (Some [9; 11; 10; 12]%Q)) = syl nflx_fresh /\
  exists (frame : Frame) (highs lows closes : Series),
    getitem (History (nflx_host 12 0) [syl nflx_fresh] 4 Daily) (syl nflx_fresh)
    = Ok frame /\
    getitem frame "high" = Ok highs /\ Some [10; 12; 11; 13]%Q = Some highs /\
    getitem frame "low" = Ok lows /\ Some [8; 9; 7; 10]%Q = Some lows /\
    getitem frame "close" = Ok closes /\ Some [9; 11; 10; 12]%Q = Some closes.
Proof.
  apply (SetSignal_reads_only nflx_fresh
           (mkAlgo "NFLX" (Some (19 # 2)%Q) (Some (29 # 2)%Q) (Some 12%Q)
                   (Some [10; 12; 11; 13]%Q) (Some [8; 9; 7; 10]%Q)
                   (Some [9; 11; 10; 12]%Q))
           (nflx_host 12 0) (nflx_host 12 0)).
  vm_compute. reflexivity.
Defined.

(** X5: when no close of the window exceeds the high of its day, the range
    is not negative, and selltrig <= open <= buytrig. *)
Theorem triggers_bracket_open :
  forall (self self' : Algo) (h h' : Host) (frame : Frame)
         (highs closes : Series),
    SetSignal self h = Ok (self', h') ->
    getitem (History h [syl self] 4 Daily) (syl self) = Ok frame ->
    getitem frame "high" = Ok highs ->
    getitem frame "close" = Ok closes ->
    Forall2 Qle closes highs ->
    exists o s b : Q,
      currentopen self' = Some o /\
      selltrig self' = Some s /\ buytrig self' = Some b /\
      (s <= o)%Q /\ (o <= b)%Q.
Proof.
  intros self self' h h' frame highs closes H Hf Hh Hc Hbars.
  apply SetSignal_Ok_inv in H.
  destruct H as (_ & frame0 & highs0 & lows & closes0 & sec & HH & HC & LC & LL
                 & Hf0 & Hh0 & _ & Hc0 & _ & EHH & _ & ELC & _ & ->).
  rewrite Hf in Hf0. inversion Hf0; subst frame0.
  rewrite Hh in Hh0. inversion Hh0; subst highs0.
  rewrite Hc in Hc0. inversion Hc0; subst closes0.
  destruct (py_max_spec highs (py_max_Ok _ _ EHH)) as (m & Em & Hm).
  rewrite EHH in Em. inversion Em; subst m.
  destruct (py_min_spec closes (py_min_Ok _ _ ELC)) as (m & Em' & Hm').
  rewrite ELC in Em'. inversion Em'; subst m.
  assert (Hpos : (0 <= signalrange HH HC LC LL)%Q).
  { rewrite signalrange_max.
    apply Qle_trans with (HH - LC)%Q; [|apply Q.le_max_l].
    destruct Hbars as [|c hh cs hs Hchh _];
      [exfalso; exact (py_max_Ok _ _ EHH eq_refl)|].
    assert (H1 : (hh <= HH)%Q) by (apply Hm; now left).
    assert (H2 : (LC <= c)%Q) by (apply Hm'; now left).
    lra. }
  eexists. eexists. eexists. cbn [currentopen selltrig buytrig].
  repeat (split; [reflexivity|]).
  revert Hpos. generalize (signalrange HH HC LC LL). intros r Hr.
  split; lra.
Qed.

Lemma triggers_bracket_open_witness :
  exists o s b : Q,
    Some 12%Q = Some o /\ Some (19 # 2)%Q = Some s /\ Some (29 # 2)%Q = Some b /\
    (s <= o)%Q /\ (o <= b)%Q.
Proof.
  apply (triggers_bracket_open nflx_fresh
           (mkAlgo "NFLX" (Some (19 # 2)%Q) (Some (29 # 2)%Q) (Some 12%Q)
                   (Some [10; 12; 11; 13]%Q) (Some [8; 9; 7; 10]%Q)
                   (Some [9; 11; 10; 12]%Q))
           (nflx_host 12 0) (nflx_host 12 0)
           [("high", [10; 12; 11; 13]%Q); ("low", [8; 9; 7; 10]%Q);
            ("close", [9; 11; 10; 12]%Q)]
           [10; 12; 11; 13]%Q [9; 11; 10; 12]%Q).
  - vm_compute. reflexivity.
  - reflexivity.
  - reflexivity.
  - reflexivity.
  - repeat (constructor; [lra|]). constructor.
Defined.

Lemma set_quantity_symbols (s : string) (q : Q) (p : list SecurityHolding) :
  map Symbol (set_quantity s q p) = map Symbol p.
Proof.
  unfold set_quantity. rewrite map_map. apply map_ext.
  intros sec. now destruct (String.eqb (Symbol sec) s).
Qed.

(** [OnData] with a holding and selltrig set, as the host it leaves. *)
Lemma OnData_eval (self : Algo) (h : Host) (sec : SecurityHolding) (t : Q) :
  find_holding (syl self) (Portfolio h) = Some sec ->
  selltrig self = Some t ->
  OnData self h
  = Ok (tt, record_call (Log (log_line self))
              (if Qle_bool t (Price sec) then
                 if Qle_bool 0 (Quantity sec)
                 then holdings_set (4 # 5) (syl self) h
                 else holdings_set (4 # 5) (syl self) (liquidated (syl self) h)
               else
                 if Qle_bool 0 (Quantity sec)
                 then holdings_set (- (4 # 5)) (syl self)
                                   (liquidated (syl self) h)
                 else holdings_set (- (4 # 5)) (syl self) h)).
Proof.
  intros Hsec Ht.
  unfold OnData, bind, Portfolio_get, lift, py_ge, py_lt.
  rewrite Ht. repeat (rewrite Hsec; cbv beta iota).
  destruct (Qle_bool t (Price sec)) eqn:Ep;
    destruct (Qle_bool 0 (Quantity sec)) eqn:Eq;
    cbv beta iota; repeat (rewrite Hsec; cbv beta iota);
    rewrite ?Ep; cbv beta iota delta [negb];
    reflexivity.
Qed.

(** X6: [OnData] raises [KeyError] when the symbol has no holding, and
    otherwise fails only with the [TypeError] of an unset selltrig. *)
Theorem OnData_outcome :
  (forall (self : Algo) (h : Host),
      find_holding (syl self) (Portfolio h) = None ->
      OnData self h = Raise KeyError) /\
  (forall (self : Algo) (h : Host) (e : PyError),
      OnData self h = Raise e ->
      (e = KeyError /\ find_holding (syl self) (Portfolio h) = None) \/
      (e = TypeError /\ selltrig self = None /\
       find_holding (syl self) (Portfolio h) <> None)).
Proof.
  assert (Hmiss : forall (self : Algo) (h : Host),
             find_holding (syl self) (Portfolio h) = None ->
             OnData self h = Raise KeyError).
  { intros self h Hn. unfold OnData, bind, Portfolio_get. now rewrite Hn. }
  split; [exact Hmiss|].
  intros self h e H.
  destruct (find_holding (syl self) (Portfolio h)) as [sec|] eqn:Hs.
  - destruct (selltrig self) as [t|] eqn:Ht.
    + rewrite (OnData_eval self h sec t Hs Ht) in H. discriminate.
    + right. split; [|split; [reflexivity | discriminate]].
      unfold OnData, bind, Portfolio_get, lift, py_ge in H.
      rewrite Ht in H. repeat (rewrite Hs in H; cbv beta iota in H).
      now inversion H.
  - left. rewrite (Hmiss self h Hs) in H. inversion H. now split.
Qed.

Lemma OnData_outcome_witness :
  OnData nflx_armed lone_host = Raise KeyError.
Proof.
  apply (proj1 OnData_outcome nflx_armed lone_host). reflexivity.
Defined.

(** X7: a returning [OnData] orders on its own symbol only: the portfolio
    keeps its symbols, the holdings of all other symbols are untouched, and
    each call made is an order on the symbol or the log line. *)
Theorem OnData_trades_own_symbol :
  forall (self : Algo) (h h' : Host),
    OnData self h = Ok (tt, h') ->
    map Symbol (Portfolio h') = map Symbol (Portfolio h) /\
    (forall s : string,
        s <> syl self ->
        find_holding s (Portfolio h') = find_holding s (Portfolio h)) /\
    exists cs : list HostCall,
      issued h h' cs /\ Forall (concerns (syl self)) cs.
Proof.
  intros self h h' H.
  destruct (find_holding (syl self) (Portfolio h)) as [sec|] eqn:Hs;
    [|unfold OnData, bind, Portfolio_get in H; rewrite Hs in H; discriminate].
  destruct (selltrig self) as [t|] eqn:Ht.
  - rewrite (OnData_eval self h sec t Hs Ht) in H. inversion H; subst h'.
    clear H.
    destruct (Qle_bool t (Price sec)); destruct (Qle_bool 0 (Quantity sec));
      cbn [Portfolio calls record_call with_portfolio holdings_set liquidated];
      rewrite ?set_quantity_symbols.
    all: split; [reflexivity|]; split;
      [ intros s Hne;
        rewrite ?find_holding_set_other by (intro E; apply Hne; now rewrite E);
        reflexivity |].
    all: unfold issued;
      cbn [calls record_call with_portfolio holdings_set liquidated].
    1: exists [SetHoldings (syl self) (4 # 5); Log (log_line self)].
    2: exists [Liquidate (syl self); SetHoldings (syl self) (4 # 5);
               Log (log_line self)].
    3: exists [Liquidate (syl self); SetHoldings (syl self) (- (4 # 5));
               Log (log_line self)].
    4: exists [SetHoldings (syl self) (- (4 # 5)); Log (log_line self)].
    all: split; [rewrite <- ?app_assoc; reflexivity|].
    all: repeat (constructor; [exact I || reflexivity|]); constructor.
  - exfalso. unfold OnData, bind, Portfolio_get, lift, py_ge in H.
    rewrite Ht in H. repeat (rewrite Hs in H; cbv beta iota in H).
    discriminate.
Qed.

Lemma OnData_trades_own_symbol_witness :
  map Symbol
      (Portfolio (record_call (Log (log_line nflx_armed))
                    (holdings_set (4 # 5) "NFLX" (nflx_host 12 0))))
  = map Symbol (Portfolio (nflx_host 12 0)) /\
  (forall s : string,
      s <> syl nflx_armed ->
      find_holding s
        (Portfolio (record_call (Log (log_line nflx_armed))
                      (holdings_set (4 # 5) "NFLX" (nflx_host 12 0))))
      = find_holding s (Portfolio (nflx_host 12 0))) /\
  exists cs : list HostCall,
    issued (nflx_host 12 0)
           (record_call (Log (log_line nflx_armed))
              (holdings_set (4 # 5) "NFLX" (nflx_host 12 0))) cs /\
    Forall (concerns (syl nflx_armed)) cs.
Proof.
  apply (OnData_trades_own_symbol nflx_armed (nflx_host 12 0)
           (record_call (Log (log_line nflx_armed))
              (holdings_set (4 # 5) "NFLX" (nflx_host 12 0)))).
  vm_compute. reflexivity.
Defined.

(** X8: once [Initialize] and then [SetSignal] have returned, [OnData]
    returns on every host that has a holding of NFLX. *)
Theorem OnData_after_SetSignal :
  forall (h0 h1 h2 h2' h3 : Host) (self0 self1 : Algo) (sec : SecurityHolding),
    Initialize h0 = Ok (self0, h1) ->
    SetSignal self0 h2 = Ok (self1, h2') ->
    find_holding "NFLX" (Portfolio h3) = Some sec ->
    syl self1 = "NFLX" /\
    exists h4 : Host, OnData self1 h3 = Ok (tt, h4).
Proof.
  intros h0 h1 h2 h2' h3 self0 self1 sec Hinit Hsig Hsec.
  unfold Initialize, bind, emit, host_AddSecurity, ret in Hinit.
  cbv beta iota in Hinit. inversion Hinit; subst self0. clear Hinit.
  apply SetSignal_Ok_inv in Hsig.
  destruct Hsig as (_ & frame & highs & lows & closes & sec0 & HH & HC & LC
                    & LL & _ & _ & _ & _ & _ & _ & _ & _ & _ & ->).
  cbn [syl]. split; [reflexivity|].
  eexists. eapply OnData_eval; [exact Hsec | reflexivity].
Qed.

Lemma OnData_after_SetSignal_witness :
  syl (mkAlgo "NFLX" (Some (19 # 2)%Q) (Some (29 # 2)%Q) (Some 12%Q)
              (Some [10; 12; 11; 13]%Q) (Some [8; 9; 7; 10]%Q)
              (Some [9; 11; 10; 12]%Q)) = "NFLX" /\
  exists h4 : Host,
    OnData (mkAlgo "NFLX" (Some (19 # 2)%Q) (Some (29 # 2)%Q) (Some 12%Q)
                   (Some [10; 12; 11; 13]%Q) (Some [8; 9; 7; 10]%Q)
                   (Some [9; 11; 10; 12]%Q))
           (nflx_host 9 (-5)) = Ok (tt, h4).
Proof.
  eapply (OnData_after_SetSignal (nflx_host 12 0) _ (nflx_host 12 0)
            (nflx_host 12 0) (nflx_host 9 (-5)) _ _
            (mkHolding "NFLX" 9 (-5))).
  - reflexivity.
  - vm_compute. reflexivity.
  - reflexivity.
Defined.

End DualThrustMore.

(** ** Further facts: what orders leave in place *)

Lemma set_quantity_prices (s : string) (q : Q) (p : list SecurityHolding) :
  map Price (set_quantity s q p) = map Price p.
Proof.
  unfold set_quantity. rewrite map_map. apply map_ext.
  intros sec. now destruct (String.eqb (Symbol sec) s).
Qed.

Lemma same_market_refl (h : Host) : same_market h h.
Proof. unfold same_market. repeat split. Qed.

Lemma same_market_trans (h1 h2 h3 : Host) :
  same_market h1 h2 -> same_market h2 h3 -> same_market h1 h3.
Proof.
  unfold same_market.
  intros (A1 & A2 & A3 & A4 & A5 & A6) (B1 & B2 & B3 & B4 & B5 & B6).
  repeat split; congruence.
Qed.

Lemma liquidated_market (s : string) (h : Host) : same_market h (liquidated s h).
Proof.
  unfold same_market, liquidated. cbn.
  rewrite set_quantity_symbols, set_quantity_prices. repeat split.
Qed.

Lemma holdings_set_market (w : Q) (s : string) (h : Host) :
  same_market h (holdings_set w s h).
Proof.
  unfold same_market, holdings_set. cbn.
  rewrite set_quantity_symbols, set_quantity_prices. repeat split.
Qed.

Lemma liquidate_all_market (l : list string) (h : Host) :
  same_market h (liquidate_all l h).
Proof.
  revert h. unfold liquidate_all.
  induction l as [|s l IH]; intros h; cbn [fold_left].
  - apply same_market_refl.
  - eapply same_market_trans; [apply (liquidated_market s) | apply IH].
Qed.

Lemma set_all_market (w : Q) (l : list string) (h : Host) :
  same_market h (set_all w l h).
Proof.
  revert h. unfold set_all.
  induction l as [|s l IH]; intros h; cbn [fold_left].
  - apply same_market_refl.
  - eapply same_market_trans; [apply (holdings_set_market w s) | apply IH].
Qed.

Lemma set_all_same (w : Q) (l : list string) (h : Host) (s : string)
      (sec : SecurityHolding) :
  In s l -> find_holding s (Portfolio h) = Some sec ->
  find_holding s (Portfolio (set_all w l h))
  = Some (mkHolding (Symbol sec) (Price sec) (order_size h s w)).
Proof.
  revert h sec. unfold set_all.
  induction l as [|x l IH]; intros h sec Hin Hf; cbn [fold_left];
    [destruct Hin|].
  destruct (string_dec x s) as [->|Hne].
  - pose proof (find_holding_set_same s (order_size h s w) _ _ Hf) as H1.
    destruct (in_dec string_dec s l) as [Hl|Hl].
    + rewrite (IH (holdings_set w s h) _ Hl H1). reflexivity.
    + fold (set_all w l (holdings_set w s h)).
      rewrite (set_all_other w l _ s Hl). exact H1.
  - destruct Hin as [E|Hin]; [congruence|].
    rewrite (IH (holdings_set w x h) sec Hin).
    + reflexivity.
    + cbn [Portfolio holdings_set record_call with_portfolio].
      now rewrite find_holding_set_other.
Qed.

Lemma find_holding_symbols (s : string) (p : list SecurityHolding)
      (sec : SecurityHolding) :
  find_holding s p = Some sec -> In s (map Symbol p).
Proof.
  intros H. apply find_holding_Symbol in H. destruct H as [<- Hin].
  now apply in_map.
Qed.

(** ** Further facts: momentum rotation *)

Section MomentumMore.

Import Momentum.

Variable sort_values : bool -> list (string * Q) -> list (string * Q).

(** The first loop returns on every portfolio: its keys are the symbols of
    holdings that are there. *)
Lemma liquidation_loop_total (top keys : list string) :
  forall h : Host,
    incl keys (map Symbol (Portfolio h)) ->
    exists h' : Host,
      for_each keys
        (fun key =>
           security_hold <- Portfolio_get key ;;
           if Invested security_hold && negb (py_in (Symbol security_hold) top)
           then host_Liquidate (Symbol security_hold)
           else ret tt)%py h
      = Ok (tt, h') /\
      same_market h h'.
Proof.
  induction keys as [|key keys IH]; intros h Hincl.
  - exists h. split; [reflexivity | apply same_market_refl].
  - cbn [for_each]. unfold bind at 1. unfold bind at 1.
    unfold Portfolio_get at 1.
    destruct (find_holding_In key (Portfolio h)) as [sec Hsec];
      [apply Hincl; now left|].
    rewrite Hsec.
    destruct (Invested sec && negb (py_in (Symbol sec) top)).
    + unfold host_Liquidate at 1. fold (liquidated (Symbol sec) h).
      pose proof (liquidated_market (Symbol sec) h) as Hm.
      destruct (IH (liquidated (Symbol sec) h)) as (h' & Hrun & Hm').
      * destruct Hm as (-> & _). intros k Hk. apply Hincl. now right.
      * exists h'. split; [exact Hrun|].
        exact (same_market_trans _ _ _ Hm Hm').
    + unfold ret at 1.
      destruct (IH h) as (h' & Hrun & Hm');
        [intros k Hk; apply Hincl; now right|].
      now exists h'.
Qed.

(** The second loop fails with [KeyError] only, and on a missing holding
    it does fail. *)
Lemma collection_loop_raises (l : list string) :
  forall (acc : list string) (h : Host) (e : PyError),
    for_fold l
      (fun added symbol =>
         sec <- Portfolio_get symbol ;;
         if negb (Invested sec) then ret (added ++ [symbol]) else ret added)%py
      acc h
    = Raise e ->
    e = KeyError.
Proof.
  induction l as [|s l IH]; intros acc h e; [discriminate|].
  cbn [for_fold]. unfold bind at 1. unfold bind at 1.
  unfold Portfolio_get at 1.
  destruct (find_holding s (Portfolio h)) as [sec|].
  - destruct (negb (Invested sec)); unfold ret at 1; apply IH.
  - intros H. now inversion H.
Qed.

Lemma collection_loop_missing (l : list string) :
  forall (acc : list string) (h : Host),
    (exists s, In s l /\ ~ In s (map Symbol (Portfolio h))) ->
    for_fold l
      (fun added symbol =>
         sec <- Portfolio_get symbol ;;
         if negb (Invested sec) then ret (added ++ [symbol]) else ret added)%py
      acc h
    = Raise KeyError.
Proof.
  induction l as [|s l IH]; intros acc h (x & Hx & Hmiss); [destruct Hx|].
  cbn [for_fold]. unfold bind at 1. unfold bind at 1.
  unfold Portfolio_get at 1.
  destruct (find_holding s (Portfolio h)) as [sec|] eqn:Hs; [|reflexivity].
  assert (Hin : In x l).
  { destruct Hx as [->|Hx]; [|exact Hx].
    exfalso. apply Hmiss. exact (find_holding_symbols _ _ _ Hs). }
  destruct (negb (Invested sec)); unfold ret at 1; apply IH; now exists x.
Qed.

Lemma collection_loop_host (l : list string) :
  forall (acc added : list string) (h h' : Host),
    for_fold l
      (fun added0 symbol =>
         sec <- Portfolio_get symbol ;;
         if negb (Invested sec) then ret (added0 ++ [symbol]) else ret added0)%py
      acc h
    = Ok (added, h') ->
    h' = h.
Proof.
  induction l as [|s l IH]; intros acc added h h'.
  - cbn. intros H. now inversion H.
  - cbn [for_fold]. unfold bind at 1. unfold bind at 1.
    unfold Portfolio_get at 1.
    destruct (find_holding s (Portfolio h)) as [sec|]; [|discriminate].
    destruct (negb (Invested sec)); unfold ret at 1; apply IH.
Qed.

(** [Rebalance] outside warm-up on any portfolio: the first loop returns,
    and the outcome is that of the second loop followed by the orders. *)
Lemma Rebalance_shape (self : Algo) (h : Host) :
  IsWarmingUp h = false ->
  exists h1 : Host,
    same_market h h1 /\
    Rebalance sort_values self h
    = match
        for_fold (top_index sort_values self h)
          (fun added symbol =>
             sec <- Portfolio_get symbol ;;
             if negb (Invested sec) then ret (added ++ [symbol])
             else ret added)%py
          [] h1
      with
      | Ok (added, h2) =>
          Ok (tt, set_all (1 / inject_Z (Z.of_nat (List.length added)))
                          added h2)
      | Raise e => Raise e
      end.
Proof.
  intros Hw.
  destruct (liquidation_loop_total (top_index sort_values self h)
              (map Symbol (Portfolio h)) h (incl_refl _)) as (h1 & Hrun & Hm).
  exists h1. split; [exact Hm|].
  unfold Rebalance. unfold bind at 1. unfold ask. rewrite Hw.
  unfold bind at 1. rewrite Hrun. unfold bind at 1.
  destruct (for_fold _ _ [] h1) as [[added h2]|e]; [|reflexivity].
  apply holdings_loop. intros Hne Hz.
  apply length_zero_iff_nil in Hz. contradiction.
Qed.

(** X9: outside warm-up, on a portfolio in which some symbol of the top 9
    has no holding, [Rebalance] raises [KeyError]. *)
Theorem Rebalance_missing_holding :
  forall (self : Algo) (h : Host),
    IsWarmingUp h = false ->
    (exists s : string,
        In s (top_index sort_values self h) /\
        ~ In s (map Symbol (Portfolio h))) ->
    Rebalance sort_values self h = Raise KeyError.
Proof.
  intros self h Hw (s & Hs & Hmiss).
  destruct (Rebalance_shape self h Hw) as (h1 & Hm & ->).
  rewrite collection_loop_missing; [reflexivity|].
  exists s. split; [exact Hs|]. destruct Hm as (-> & _). exact Hmiss.
Qed.

(** X10: whatever the host, [Rebalance] raises nothing but [KeyError]; the
    division by the number of added symbols is never a division by zero. *)
Theorem Rebalance_only_KeyError :
  forall (self : Algo) (h : Host) (e : PyError),
    Rebalance sort_values self h = Raise e -> e = KeyError.
Proof.
  intros self h e H.
  destruct (IsWarmingUp h) eqn:Hw.
  - unfold Rebalance, bind, ask in H. rewrite Hw in H. discriminate.
  - destruct (Rebalance_shape self h Hw) as (h1 & _ & Hshape).
    rewrite Hshape in H.
    destruct (for_fold _ _ [] h1) as [[added h2]|e'] eqn:E; [discriminate|].
    inversion H; subst. exact (collection_loop_raises _ _ _ _ E).
Qed.

(** X11: a returning [Rebalance] changes quantities and the record of calls
    only: the securities, their prices, the warm-up flag and the indicator
    values are as before, and so is the ranking. *)
Theorem Rebalance_keeps_market :
  forall (self : Algo) (h h' : Host),
    Rebalance sort_values self h = Ok (tt, h') ->
    same_market h h' /\
    top_index sort_values self h' = top_index sort_values self h.
Proof.
  intros self h h' H.
  assert (Hm : same_market h h').
  { destruct (IsWarmingUp h) eqn:Hw.
    - unfold Rebalance, bind, ask in H. rewrite Hw in H.
      inversion H. apply same_market_refl.
    - destruct (Rebalance_shape self h Hw) as (h1 & Hm1 & Hshape).
      rewrite Hshape in H.
      destruct (for_fold _ _ [] h1) as [[added h2]|e'] eqn:E; [|discriminate].
      apply collection_loop_host in E. subst h2.
      inversion H. eapply same_market_trans; [exact Hm1|].
      apply set_all_market. }
  split; [exact Hm|].
  destruct Hm as (_ & _ & _ & Hc & _).
  unfold top_index, scores. now rewrite Hc.
Qed.

Lemma filter_none {A : Type} (f : A -> bool) (l : list A) :
  (forall x, In x l -> f x = false) -> filter f l = [].
Proof.
  induction l as [|x xs IH]; intros H; [reflexivity|]. simpl.
  rewrite (H x) by now left. apply IH. intros y Hy. apply H. now right.
Qed.

Lemma filter_all {A : Type} (f : A -> bool) (l : list A) :
  (forall x, In x l -> f x = true) -> filter f l = l.
Proof.
  induction l as [|x xs IH]; intros H; [reflexivity|]. simpl.
  rewrite (H x) by now left. f_equal. apply IH. intros y Hy. apply H.
  now right.
Qed.

Lemma Invested_quantity (s : string) (p q : Q) :
  ~ (q == 0)%Q -> Invested (mkHolding s p q) = true.
Proof.
  intros Hq. unfold Invested. cbn [Quantity].
  destruct (Qeq_bool q 0) eqn:E; [|reflexivity].
  apply Qeq_bool_iff in E. contradiction.
Qed.

(** The ranking under a sort that returns a permutation. *)
Lemma top_index_incl (self : Algo) (h : Host) :
  (forall l, Permutation (sort_values false l) l) ->
  incl (top_index sort_values self h) (map fst (data self)).
Proof.
  intros Hperm s Hs. unfold top_index in Hs.
  apply in_map_iff in Hs. destruct Hs as ([k v] & <- & Hin).
  assert (Hin' : In (k, v) (sort_values false (scores self h))).
  { rewrite <- (firstn_skipn 9). apply in_or_app. now left. }
  apply (Permutation_in _ (Hperm _)) in Hin'.
  unfold scores in Hin'. apply in_map_iff in Hin'.
  destruct Hin' as ([k' i] & E & Hd). inversion E; subst.
  apply in_map_iff. now exists (k, i).
Qed.

Lemma top_index_length (self : Algo) (h : Host) :
  (forall l, Permutation (sort_values false l) l) ->
  List.length (top_index sort_values self h)
  = Nat.min 9 (List.length (data self)).
Proof.
  intros Hperm. unfold top_index.
  rewrite length_map, length_firstn, (Permutation_length (Hperm _)).
  unfold scores. now rewrite length_map.
Qed.

Lemma top_index_NoDup (self : Algo) (h : Host) :
  (forall l, Permutation (sort_values false l) l) ->
  NoDup (map fst (data self)) ->
  NoDup (top_index sort_values self h).
Proof.
  intros Hperm Hnd. unfold top_index.
  assert (H : NoDup (map fst (sort_values false (scores self h)))).
  { apply (Permutation_NoDup
             (Permutation_map fst (Permutation_sym (Hperm (scores self h))))).
    unfold scores. rewrite map_map. cbn [fst]. exact Hnd. }
  rewrite <- (firstn_skipn 9 (sort_values false (scores self h))) in H.
  rewrite map_app in H. exact (NoDup_app_remove_r _ _ H).
Qed.

(** X15: under a sort that returns a permutation, the top is made of
    min(9, number of registered symbols) of the registered symbols,
    without repetition when the registered symbols have none. *)
Theorem top_index_facts :
  forall (self : Algo) (h : Host),
    (forall l, Permutation (sort_values false l) l) ->
    List.length (top_index sort_values self h)
    = Nat.min 9 (List.length (data self)) /\
    incl (top_index sort_values self h) (map fst (data self)) /\
    (NoDup (map fst (data self)) -> NoDup (top_index sort_values self h)).
Proof.
  intros self h Hperm. split; [now apply top_index_length|].
  split; [now apply top_index_incl|]. now apply top_index_NoDup.
Qed.

(** The host a returning [Rebalance] leaves: nothing outside the top is
    invested, and all of the top is once the host has filled the orders. *)
Lemma rebalanced_outside_top (top : list string) (w : Q) (h : Host) (s : string) :
  NoDup (map Symbol (Portfolio h)) ->
  incl top (map Symbol (Portfolio h)) ->
  ~ In s top ->
  ~ invested_in
      (Portfolio (set_all w (to_add top (Portfolio h))
                    (liquidate_all (to_liquidate top (Portfolio h)) h))) s.
Proof.
  intros Hnd Hincl Hs (sec & Hf & Hi).
  rewrite set_all_other in Hf
    by (intro H; apply (to_add_iff top _ s Hincl) in H; tauto).
  destruct (in_dec string_dec s (to_liquidate top (Portfolio h))) as [Hl|Hl].
  - assert (Hin : In s (map Symbol (Portfolio h))).
    { unfold to_liquidate in Hl. apply in_map_iff in Hl.
      destruct Hl as (x & <- & Hx). apply filter_In in Hx.
      apply in_map. tauto. }
    destruct (find_holding_In _ _ Hin) as [sec0 Hf0].
    rewrite (liquidate_all_closed _ h s sec0 Hl Hf0) in Hf.
    inversion Hf; subst. discriminate Hi.
  - rewrite liquidate_all_other in Hf by exact Hl.
    apply Hl. apply to_liquidate_iff; [exact Hnd|]. split; [|exact Hs].
    now exists sec.
Qed.

Lemma rebalanced_top (top : list string) (w : Q) (h : Host) (s : string) :
  incl top (map Symbol (Portfolio h)) ->
  (forall x, In x (to_add top (Portfolio h)) -> ~ (order_size h x w == 0)%Q) ->
  In s top ->
  invested_in
    (Portfolio (set_all w (to_add top (Portfolio h))
                  (liquidate_all (to_liquidate top (Portfolio h)) h))) s.
Proof.
  intros Hincl Hfill Hs.
  assert (Hnl : ~ In s (to_liquidate top (Portfolio h)))
    by (intro H; exact (to_liquidate_not_top _ _ _ H Hs)).
  destruct (find_holding_In s _ (Hincl s Hs)) as [sec Hf].
  destruct (in_dec string_dec s (to_add top (Portfolio h))) as [Ha|Ha].
  - eexists. split.
    + apply set_all_same; [exact Ha|].
      rewrite liquidate_all_other by exact Hnl. exact Hf.
    + apply Invested_quantity.
      destruct (liquidate_all_market (to_liquidate top (Portfolio h)) h)
        as (_ & _ & _ & _ & -> & _).
      now apply Hfill.
  - exists sec. split.
    + rewrite set_all_other by exact Ha.
      rewrite liquidate_all_other by exact Hnl. exact Hf.
    + destruct (Invested sec) eqn:Hi; [reflexivity|].
      exfalso. apply Ha. apply (to_add_iff top _ s Hincl).
      split; [exact Hs|]. intros (sec' & Hf' & Hi').
      rewrite Hf in Hf'. inversion Hf'; subst. congruence.
Qed.

(** X12: when the host fills every order of a [Rebalance] with a non-zero
    quantity, a second [Rebalance] on the host it left places no order and
    changes nothing. *)
Theorem Rebalance_twice :
  forall (self : Algo) (h : Host),
    IsWarmingUp h = false ->
    NoDup (map Symbol (Portfolio h)) ->
    incl (top_index sort_values self h) (map Symbol (Portfolio h)) ->
    (forall s : string,
        In s (to_add (top_index sort_values self h) (Portfolio h)) ->
        ~ (order_size h s
             (1 / inject_Z
                    (Z.of_nat
                       (List.length
                          (to_add (top_index sort_values self h) (Portfolio h)))))
           == 0)%Q) ->
    exists h' : Host,
      Rebalance sort_values self h = Ok (tt, h') /\
      Rebalance sort_values self h' = Ok (tt, h').
Proof.
  intros self h Hw Hnd Hincl Hfill.
  pose proof (Rebalance_run sort_values self h Hw Hnd Hincl) as Hrun.
  cbv zeta in Hrun.
  set (top := top_index sort_values self h) in *.
  set (added := to_add top (Portfolio h)) in *.
  set (w := (1 / inject_Z (Z.of_nat (List.length added)))%Q) in *.
  set (h' := set_all w added (liquidate_all (to_liquidate top (Portfolio h)) h))
    in *.
  exists h'. split; [exact Hrun|].
  assert (Hm : same_market h h').
  { unfold h'. eapply same_market_trans;
      [apply liquidate_all_market | apply set_all_market]. }
  assert (Htop : top_index sort_values self h' = top).
  { destruct Hm as (_ & _ & _ & Hc & _).
    unfold top, top_index, scores. now rewrite Hc. }
  pose proof Hm as (Hsym & _ & Hwarm & _).
  assert (Hnd' : NoDup (map Symbol (Portfolio h'))) by now rewrite Hsym.
  assert (Hincl' : incl (top_index sort_values self h')
                        (map Symbol (Portfolio h')))
    by now rewrite Htop, Hsym.
  rewrite (Rebalance_run sort_values self h' (eq_trans Hwarm Hw) Hnd' Hincl').
  rewrite Htop.
  assert (HL : to_liquidate top (Portfolio h') = []).
  { unfold to_liquidate. rewrite filter_none; [reflexivity|].
    intros sec Hin.
    destruct (Invested sec) eqn:Hi; [|reflexivity].
    destruct (py_in (Symbol sec) top) eqn:Hp; [reflexivity|].
    exfalso.
    apply (rebalanced_outside_top top w h (Symbol sec) Hnd Hincl).
    - intro H. apply py_in_iff in H. congruence.
    - exists sec. split; [|exact Hi]. now apply find_holding_NoDup. }
  assert (HA : to_add top (Portfolio h') = []).
  { unfold to_add. apply filter_none. intros s Hs.
    destruct (rebalanced_top top w h s Hincl Hfill Hs) as (sec & Hf & Hi).
    fold added in Hf. fold h' in Hf. now rewrite Hf, Hi. }
  rewrite HL, HA. reflexivity.
Qed.

(** X13: on a portfolio in which nothing is invested, with at least nine
    registered symbols that all have a holding, [Rebalance] places exactly
    one [SetHoldings] at the weight 1/9 on each of the nine top symbols, in
    the order of the ranking, and no other order. *)
Theorem first_Rebalance_equal_weights :
  forall (self : Algo) (h : Host),
    IsWarmingUp h = false ->
    NoDup (map Symbol (Portfolio h)) ->
    (forall l, Permutation (sort_values false l) l) ->
    incl (map fst (data self)) (map Symbol (Portfolio h)) ->
    (9 <= List.length (data self))%nat ->
    Forall (fun sec => Invested sec = false) (Portfolio h) ->
    exists h' : Host,
      Rebalance sort_values self h = Ok (tt, h') /\
      List.length (top_index sort_values self h) = 9%nat /\
      issued h h'
        (map (fun s => SetHoldings s (1 # 9)) (top_index sort_values self h)).
Proof.
  intros self h Hw Hnd Hperm Hdata H9 Hflat.
  assert (Hincl : incl (top_index sort_values self h)
                       (map Symbol (Portfolio h))).
  { intros s Hs. apply Hdata. exact (top_index_incl self h Hperm s Hs). }
  assert (Hlen : List.length (top_index sort_values self h) = 9%nat).
  { rewrite (top_index_length self h Hperm). now apply Nat.min_l. }
  pose proof (Rebalance_run sort_values self h Hw Hnd Hincl) as Hrun.
  cbv zeta in Hrun.
  set (top := top_index sort_values self h) in *.
  rewrite Forall_forall in Hflat.
  assert (HL : to_liquidate top (Portfolio h) = []).
  { unfold to_liquidate. rewrite filter_none; [reflexivity|].
    intros sec Hin. now rewrite (Hflat sec Hin). }
  assert (HA : to_add top (Portfolio h) = top).
  { unfold to_add. apply filter_all. intros s Hs.
    destruct (find_holding_In s _ (Hincl s Hs)) as [sec Hf]. rewrite Hf.
    apply find_holding_Symbol in Hf. destruct Hf as [_ Hin].
    now rewrite (Hflat sec Hin). }
  rewrite HL, HA, Hlen in Hrun.
  eexists. split; [exact Hrun|]. split; [exact Hlen|].
  unfold issued. rewrite set_all_calls. reflexivity.
Qed.

Lemma count_SetHoldings_orders (w : Q) (liq add : list string) :
  count_SetHoldings
    (map Liquidate liq ++ map (fun s => SetHoldings s w) add)
  = List.length add.
Proof.
  induction liq as [|s liq IH]; [|exact IH]. cbn [map app].
  induction add as [|a add IH]; [reflexivity|].
  cbn [map count_SetHoldings List.length]. now rewrite IH.
Qed.

(** X14: when some symbol of the top 9 is not invested, the [SetHoldings]
    that [Rebalance] places are between one and nine, and each carries the
    weight 1/k, k being their number. *)
Theorem Rebalance_order_count :
  forall (self : Algo) (h : Host),
    IsWarmingUp h = false ->
    NoDup (map Symbol (Portfolio h)) ->
    incl (top_index sort_values self h) (map Symbol (Portfolio h)) ->
    (exists s : string,
        In s (top_index sort_values self h) /\
        ~ invested_in (Portfolio h) s) ->
    exists (h' : Host) (cs : list HostCall),
      Rebalance sort_values self h = Ok (tt, h') /\
      issued h h' cs /\
      (1 <= count_SetHoldings cs <= 9)%nat /\
      (forall (s : string) (w : Q),
          In (SetHoldings s w) cs ->
          w = (1 / inject_Z (Z.of_nat (count_SetHoldings cs)))%Q).
Proof.
  intros self h Hw Hnd Hincl (s & Hs & Hni).
  pose proof (Rebalance_run sort_values self h Hw Hnd Hincl) as Hrun.
  cbv zeta in Hrun.
  set (top := top_index sort_values self h) in *.
  set (added := to_add top (Portfolio h)) in *.
  set (w := (1 / inject_Z (Z.of_nat (List.length added)))%Q) in *.
  assert (Hin : In s added) by (apply (to_add_iff top _ s Hincl); now split).
  assert (Hpos : (1 <= List.length added)%nat).
  { destruct added; [destruct Hin | cbn; apply le_n_S, Nat.le_0_l]. }
  assert (Hle : (List.length added <= 9)%nat).
  { apply Nat.le_trans with (List.length top).
    - apply filter_length_le.
    - unfold top, top_index. rewrite length_map. apply firstn_le_length. }
  eexists.
  exists (map Liquidate (to_liquidate top (Portfolio h))
          ++ map (fun x => SetHoldings x w) added).
  split; [exact Hrun|]. split; [|split].
  - unfold issued. rewrite set_all_calls, liquidate_all_calls.
    now rewrite <- app_assoc.
  - rewrite count_SetHoldings_orders. now split.
  - intros x v Hx. rewrite count_SetHoldings_orders.
    apply in_app_or in Hx. rewrite !in_map_iff in Hx.
    destruct Hx as [(y & E & _)|(y & E & _)]; [discriminate|].
    inversion E. reflexivity.
Qed.

End MomentumMore.

(** *** Runs of the further facts on the example states *)

Lemma Rebalance_missing_holding_witness :
  Momentum.Rebalance Momentum.insertion_sort rot_self lone_host
  = Raise KeyError.
Proof.
  apply (Rebalance_missing_holding Momentum.insertion_sort rot_self lone_host).
  - reflexivity.
  - exists "AMZN". split.
    + vm_compute. left. reflexivity.
    + vm_compute. intros [H|[]]. discriminate H.
Defined.

Lemma Rebalance_only_KeyError_witness : KeyError = KeyError.
Proof.
  apply (Rebalance_only_KeyError Momentum.insertion_sort rot_self lone_host
           KeyError).
  vm_compute. reflexivity.
Defined.

Lemma Rebalance_keeps_market_witness :
  same_market (rot_host false eight_held)
              (set_all 1 ["HD"]
                 (liquidate_all ["IVV"] (rot_host false eight_held))) /\
  Momentum.top_index Momentum.insertion_sort rot_self
    (set_all 1 ["HD"] (liquidate_all ["IVV"] (rot_host false eight_held)))
  = Momentum.top_index Momentum.insertion_sort rot_self
      (rot_host false eight_held).
Proof.
  apply (Rebalance_keeps_market Momentum.insertion_sort rot_self
           (rot_host false eight_held)
           (set_all 1 ["HD"]
              (liquidate_all ["IVV"] (rot_host false eight_held)))).
  vm_compute. reflexivity.
Defined.

Lemma top_index_facts_witness :
  List.length (Momentum.top_index Momentum.insertion_sort rot_self
                 (rot_host false eight_held))
  = Nat.min 9 (List.length (Momentum.data rot_self)) /\
  incl (Momentum.top_index Momentum.insertion_sort rot_self
          (rot_host false eight_held))
       (map fst (Momentum.data rot_self)) /\
  (NoDup (map fst (Momentum.data rot_self)) ->
   NoDup (Momentum.top_index Momentum.insertion_sort rot_self
            (rot_host false eight_held))).
Proof.
  apply (top_index_facts Momentum.insertion_sort rot_self
           (rot_host false eight_held) (insertion_sort_perm false)).
Defined.

Lemma Rebalance_twice_witness :
  exists h' : Host,
    Momentum.Rebalance Momentum.insertion_sort rot_self
                       (rot_host false eight_held) = Ok (tt, h') /\
    Momentum.Rebalance Momentum.insertion_sort rot_self h' = Ok (tt, h').
Proof.
  apply (Rebalance_twice Momentum.insertion_sort rot_self
           (rot_host false eight_held)).
  - reflexivity.
  - apply rot_host_NoDup.
  - apply rot_host_top.
  - intros s _. vm_compute. intros H. discriminate H.
Defined.

Lemma first_Rebalance_equal_weights_witness :
  exists h' : Host,
    Momentum.Rebalance Momentum.insertion_sort rot_self (rot_host false [])
    = Ok (tt, h') /\
    List.length (Momentum.top_index Momentum.insertion_sort rot_self
                   (rot_host false [])) = 9%nat /\
    issued (rot_host false []) h'
      (map (fun s => SetHoldings s (1 # 9))
           (Momentum.top_index Momentum.insertion_sort rot_self
              (rot_host false []))).
Proof.
  apply (first_Rebalance_equal_weights Momentum.insertion_sort rot_self
           (rot_host false [])).
  - reflexivity.
  - apply rot_host_NoDup.
  - apply (insertion_sort_perm false).
  - apply inclb_sound. vm_compute. reflexivity.
  - vm_compute. repeat constructor.
  - vm_compute. repeat (constructor; [reflexivity|]). constructor.
Defined.

Lemma Rebalance_order_count_witness :
  exists (h' : Host) (cs : list HostCall),
    Momentum.Rebalance Momentum.insertion_sort rot_self
                       (rot_host false eight_held) = Ok (tt, h') /\
    issued (rot_host false eight_held) h' cs /\
    (1 <= count_SetHoldings cs <= 9)%nat /\
    (forall (s : string) (w : Q),
        In (SetHoldings s w) cs ->
        w = (1 / inject_Z (Z.of_nat (count_SetHoldings cs)))%Q).
Proof.
  apply (Rebalance_order_count Momentum.insertion_sort rot_self
           (rot_host false eight_held)).
  - reflexivity.
  - apply rot_host_NoDup.
  - apply rot_host_top.
  - exists "HD". split.
    + vm_compute. do 8 right. left. reflexivity.
    + intros (sec & Hf & Hi). vm_compute in Hf. inversion Hf; subst.
      vm_compute in Hi. discriminate Hi.
Defined.

(** ** Further facts: from [Initialize] to [Rebalance] *)

Lemma find_holding_app_l (s : string) (p q : list SecurityHolding)
      (sec : SecurityHolding) :
  find_holding s p = Some sec -> find_holding s (p ++ q) = Some sec.
Proof.
  unfold find_holding. induction p as [|x xs IH]; simpl; [discriminate|].
  destruct (String.eqb (Symbol x) s); [exact (fun H => H) | exact IH].
Qed.

Lemma add_holding_spec (s : string) (p : list SecurityHolding) :
  NoDup (map Symbol p) ->
  NoDup (map Symbol (add_holding s p)) /\
  In s (map Symbol (add_holding s p)) /\
  incl (map Symbol p) (map Symbol (add_holding s p)) /\
  (forall x sec, find_holding x p = Some sec ->
                 find_holding x (add_holding s p) = Some sec) /\
  (Forall (fun sec => Invested sec = false) p ->
   Forall (fun sec => Invested sec = false) (add_holding s p)).
Proof.
  intros Hnd. unfold add_holding.
  destruct (find_holding s p) as [sec|] eqn:E.
  - split; [exact Hnd|]. split; [exact (find_holding_symbols _ _ _ E)|].
    split; [apply incl_refl|]. split; [intros x sec0 H; exact H|].
    intros H; exact H.
  - assert (Hs : ~ In s (map Symbol p)).
    { intro Hin. destruct (find_holding_In _ _ Hin) as [sec Hf]. congruence. }
    rewrite map_app. cbn [map Symbol]. split; [|split; [|split; [|split]]].
    + apply (Permutation_NoDup (Permutation_cons_append (map Symbol p) s)).
      now constructor.
    + apply in_or_app. right. now left.
    + intros x Hx. apply in_or_app. now left.
    + intros x sec. apply find_holding_app_l.
    + intros H. apply Forall_app. split; [exact H|].
      constructor; [reflexivity | constructor].
Qed.

Lemma register_all_spec (l : list string) :
  forall h : Host,
    NoDup (map Symbol (Portfolio h)) ->
    NoDup (map Symbol (Portfolio (register_all l h))) /\
    incl l (map Symbol (Portfolio (register_all l h))) /\
    incl (map Symbol (Portfolio h)) (map Symbol (Portfolio (register_all l h))) /\
    (forall x sec, find_holding x (Portfolio h) = Some sec ->
                   find_holding x (Portfolio (register_all l h)) = Some sec) /\
    (Forall (fun sec => Invested sec = false) (Portfolio h) ->
     Forall (fun sec => Invested sec = false) (Portfolio (register_all l h))).
Proof.
  unfold register_all.
  induction l as [|s l IH]; intros h Hnd; cbn [fold_left].
  - split; [exact Hnd|]. split; [intros x []|]. split; [apply incl_refl|].
    split; [intros x sec H; exact H | intros H; exact H].
  - destruct (add_holding_spec s (Portfolio h) Hnd)
      as (A1 & A2 & A3 & A4 & A5).
    match goal with
    | |- context [fold_left _ l ?h1] =>
        destruct (IH h1) as (B1 & B2 & B3 & B4 & B5); [exact A1|];
        cbn [Portfolio record_call with_portfolio] in B3, B4, B5
    end.
    split; [exact B1|]. split; [|split; [|split]].
    + intros x [<-|Hx]; [apply B3; exact A2 | now apply B2].
    + intros x Hx. apply B3, A3, Hx.
    + intros x sec Hf. apply B4, A4, Hf.
    + intros H. apply B5, A5, H.
Qed.

Lemma record_call_portfolio (c : HostCall) (h : Host) :
  Portfolio (record_call c h) = Portfolio h.
Proof. reflexivity. Qed.

Lemma momentum_Initialize_eq (h : Host) :
  Momentum.Initialize h = Ok (rot_self, momentum_init_host h).
Proof.
  unfold Momentum.Initialize.
  unfold bind at 1, emit at 1. unfold bind at 1, emit at 1.
  unfold bind at 1, emit at 1. unfold bind at 1, emit at 1.
  unfold bind at 1. rewrite registration_loop.
  unfold bind at 1, emit at 1, ret. reflexivity.
Qed.

(** X16: [Initialize] on a portfolio with distinct symbols leaves one with
    distinct symbols in which every registered symbol has a holding; the
    holdings that were there are kept, the new ones are empty, and the
    registered symbols are distinct and more than nine: what [Rebalance]
    needs in order to return. *)
Theorem Initialize_prepares_Rebalance :
  forall h : Host,
    NoDup (map Symbol (Portfolio h)) ->
    exists (self : Momentum.Algo) (h' : Host),
      Momentum.Initialize h = Ok (self, h') /\
      NoDup (map Symbol (Portfolio h')) /\
      incl (map fst (Momentum.data self)) (map Symbol (Portfolio h')) /\
      NoDup (map fst (Momentum.data self)) /\
      (9 <= List.length (Momentum.data self))%nat /\
      (forall s sec, find_holding s (Portfolio h) = Some sec ->
                     find_holding s (Portfolio h') = Some sec) /\
      (Forall (fun sec => Invested sec = false) (Portfolio h) ->
       Forall (fun sec => Invested sec = false) (Portfolio h')).
Proof.
  intros h Hnd.
  exists rot_self, (momentum_init_host h).
  split; [apply momentum_Initialize_eq|].
  unfold momentum_init_host. rewrite record_call_portfolio.
  set (h1 := record_call (SetWarmUp Momentum.period) _).
  assert (E : Portfolio h1 = Portfolio h) by reflexivity.
  destruct (register_all_spec Momentum.universe h1) as (B1 & B2 & B3 & B4 & B5);
    [rewrite E; exact Hnd|].
  rewrite E in B4, B5. clearbody h1.
  split; [exact B1|]. split; [exact B2|].
  split; [apply nodupb_sound; vm_compute; reflexivity|].
  split; [vm_compute; repeat constructor|].
  split; [exact B4 | exact B5].
Qed.

Lemma Initialize_prepares_Rebalance_witness :
  exists (self : Momentum.Algo) (h' : Host),
    Momentum.Initialize lone_host = Ok (self, h') /\
    NoDup (map Symbol (Portfolio h')) /\
    incl (map fst (Momentum.data self)) (map Symbol (Portfolio h')) /\
    NoDup (map fst (Momentum.data self)) /\
    (9 <= List.length (Momentum.data self))%nat /\
    (forall s sec, find_holding s (Portfolio lone_host) = Some sec ->
                   find_holding s (Portfolio h') = Some sec) /\
    (Forall (fun sec => Invested sec = false) (Portfolio lone_host) ->
     Forall (fun sec => Invested sec = false) (Portfolio h')).
Proof.
  apply (Initialize_prepares_Rebalance lone_host).
  apply nodupb_sound. vm_compute. reflexivity.
Defined.

(** X17: after [Initialize], on any later host that still has the same
    securities with nothing invested, the first [Rebalance] outside warm-up
    returns with one [SetHoldings] at 1/9 on each of the nine top symbols
    and no other call. *)
Theorem Initialize_then_first_Rebalance :
  forall (sort_values : bool -> list (string * Q) -> list (string * Q))
         (h0 h1 h : Host) (self : Momentum.Algo),
    (forall l, Permutation (sort_values false l) l) ->
    NoDup (map Symbol (Portfolio h0)) ->
    Momentum.Initialize h0 = Ok (self, h1) ->
    map Symbol (Portfolio h) = map Symbol (Portfolio h1) ->
    Forall (fun sec => Invested sec = false) (Portfolio h) ->
    IsWarmingUp h = false ->
    exists h' : Host,
      Momentum.Rebalance sort_values self h = Ok (tt, h') /\
      List.length (Momentum.top_index sort_values self h) = 9%nat /\
      issued h h'
        (map (fun s => SetHoldings s (1 # 9))
             (Momentum.top_index sort_values self h)).
Proof.
  intros sort_values h0 h1 h self Hperm Hnd0 Hinit Hsym Hflat Hw.
  rewrite momentum_Initialize_eq in Hinit. inversion Hinit; subst self h1.
  clear Hinit.
  unfold momentum_init_host in Hsym. rewrite record_call_portfolio in Hsym.
  set (hr := record_call (SetWarmUp Momentum.period) _) in Hsym.
  destruct (register_all_spec Momentum.universe hr Hnd0) as (B1 & B2 & _).
  rewrite <- Hsym in B1, B2. clearbody hr.
  assert (Hincl : incl (Momentum.top_index sort_values rot_self h)
                       (map Symbol (Portfolio h))).
  { intros s Hs. apply B2.
    exact (top_index_incl sort_values rot_self h Hperm s Hs). }
  assert (Hlen : List.length (Momentum.top_index sort_values rot_self h)
                 = 9%nat).
  { rewrite (top_index_length sort_values rot_self h Hperm). reflexivity. }
  pose proof (Rebalance_run sort_values rot_self h Hw B1 Hincl) as Hrun.
  cbv zeta in Hrun.
  set (top := Momentum.top_index sort_values rot_self h) in *.
  rewrite Forall_forall in Hflat.
  assert (HL : to_liquidate top (Portfolio h) = []).
  { unfold to_liquidate. rewrite filter_none; [reflexivity|].
    intros sec Hin. now rewrite (Hflat sec Hin). }
  assert (HA : to_add top (Portfolio h) = top).
  { unfold to_add. apply filter_all. intros s Hs.
    destruct (find_holding_In s _ (Hincl s Hs)) as [sec Hf]. rewrite Hf.
    apply find_holding_Symbol in Hf. destruct Hf as [_ Hin].
    now rewrite (Hflat sec Hin). }
  rewrite HL, HA, Hlen in Hrun.
  eexists. split; [exact Hrun|]. split; [exact Hlen|].
  unfold issued. rewrite set_all_calls. reflexivity.
Qed.

Lemma Initialize_then_first_Rebalance_witness :
  exists h' : Host,
    Momentum.Rebalance Momentum.insertion_sort rot_self (rot_host false [])
    = Ok (tt, h') /\
    List.length (Momentum.top_index Momentum.insertion_sort rot_self
                   (rot_host false [])) = 9%nat /\
    issued (rot_host false []) h'
      (map (fun s => SetHoldings s (1 # 9))
           (Momentum.top_index Momentum.insertion_sort rot_self
              (rot_host false []))).
Proof.
  apply (Initialize_then_first_Rebalance Momentum.insertion_sort
           (rot_host true []) (momentum_init_host (rot_host true []))
           (rot_host false []) rot_self).
  - apply (insertion_sort_perm false).
  - apply rot_host_NoDup.
  - apply momentum_Initialize_eq.
  - vm_compute. reflexivity.
  - vm_compute. repeat (constructor; [reflexivity|]). constructor.
  - reflexivity.
Defined.

(** ** The ranking of [Rebalance] *)

Lemma insert_by_sorted (asc : bool) (x : string * Q) (l : list (string * Q)) :
  StronglySorted (by_value asc) l ->
  StronglySorted (by_value asc) (Momentum.insert_by asc x l).
Proof.
  induction l as [|y ys IH]; intros Hs; simpl.
  - constructor; constructor.
  - inversion Hs as [|? ? Hys Hy]; subst.
    destruct (Momentum.before asc y x) eqn:E.
    + constructor; [now apply IH|].
      apply (Permutation_Forall (Permutation_sym (insert_by_perm asc x ys))).
      constructor; [|exact Hy].
      unfold Momentum.before in E. unfold by_value.
      destruct asc; now apply Qle_bool_iff.
    + assert (Hxy : by_value asc x y).
      { unfold Momentum.before in E. unfold by_value.
        destruct asc; apply Qlt_le_weak, Qnot_le_lt; intro H;
          apply Qle_bool_iff in H; congruence. }
      constructor; [exact Hs|]. constructor; [exact Hxy|].
      eapply Forall_impl; [|exact Hy]. intros z Hz.
      unfold by_value in *. destruct asc.
      * now apply Qle_trans with (snd y).
      * now apply Qle_trans with (snd y).
Qed.

Lemma insertion_sort_sorted (asc : bool) (l : list (string * Q)) :
  StronglySorted (by_value asc) (Momentum.insertion_sort asc l).
Proof.
  unfold Momentum.insertion_sort.
  induction l as [|x xs IH]; simpl; [constructor | now apply insert_by_sorted].
Qed.

Lemma StronglySorted_app_l {A : Type} (R : A -> A -> Prop) (l1 l2 : list A) :
  StronglySorted R (l1 ++ l2) -> StronglySorted R l1.
Proof.
  induction l1 as [|x xs IH]; intros Hs; [constructor|].
  simpl in Hs. inversion Hs as [|? ? Hxs Hx]; subst.
  constructor; [now apply IH|].
  apply Forall_app in Hx. tauto.
Qed.

Lemma sorted_symbols (score : string -> Q) (l : list (string * Q)) :
  StronglySorted (by_value false) l ->
  (forall x, In x l -> snd x = score (fst x)) ->
  StronglySorted (fun s s' => (score s' <= score s)%Q) (map fst l).
Proof.
  induction l as [|x xs IH]; intros Hs Hval; [constructor|].
  inversion Hs as [|? ? Hxs Hx]; subst. cbn [map].
  constructor.
  - apply IH; [exact Hxs|]. intros y Hy. apply Hval. now right.
  - apply Forall_map. rewrite Forall_forall in *. intros y Hy.
    rewrite <- (Hval x) by now left.
    rewrite <- (Hval y) by now right.
    exact (Hx y Hy).
Qed.

(** The series [Rebalance] sorts, for the [self] that [Initialize] leaves:
    each symbol of the universe with the current value of the indicator
    registered for it. *)
Lemma scores_registered (h : Host) :
  Momentum.scores rot_self h
  = map (fun s => (s, Current h (mkIndicator s 126 Daily))) Momentum.universe.
Proof. reflexivity. Qed.

Lemma scores_value (h : Host) (x : string * Q) :
  In x (Momentum.scores rot_self h) ->
  In (fst x) Momentum.universe /\
  snd x = Current h (mkIndicator (fst x) 126 Daily).
Proof.
  rewrite scores_registered. intros H. apply in_map_iff in H.
  destruct H as (s & <- & Hs). now split.
Qed.

(** C5: the universe is a fixed list of 31 symbols; [Initialize] adds each
    as a daily equity and registers for it a MOM indicator of period
    6 * 21 = 126 at daily resolution, kept in [self.data] under the symbol.
    With that [self], the top of [Rebalance] is nine distinct symbols of the
    universe in descending order of the current values of those indicators,
    none of the other symbols scoring more than one of the nine; and
    outside warm-up [Rebalance] closes exactly the invested holdings
    outside this top and sets holdings on exactly the symbols of it that
    are not invested.  [sort_values] is pandas's: it returns a permutation
    sorted in the direction of its flag. *)
Theorem momentum_ranking :
  List.length Momentum.universe = 31%nat /\
  Momentum.period = 126%Z /\
  (forall h : Host,
      exists (self : Momentum.Algo) (h' : Host),
        Momentum.Initialize h = Ok (self, h') /\
        issued h h' momentum_init_calls /\
        Momentum.symbols self = Momentum.universe /\
        map fst (Momentum.data self) = Momentum.universe /\
        (forall s : string,
            In s Momentum.universe ->
            getitem (Momentum.data self) s = Ok (mkIndicator s 126 Daily) /\
            In (AddEquity s Daily) momentum_init_calls /\
            In (MOM s 126 Daily) momentum_init_calls)) /\
  (forall sort_values : bool -> list (string * Q) -> list (string * Q),
      (forall asc l, Permutation (sort_values asc l) l) ->
      (forall asc l, StronglySorted (by_value asc) (sort_values asc l)) ->
      forall (h0 h1 h : Host) (self : Momentum.Algo),
        Momentum.Initialize h0 = Ok (self, h1) ->
        let top := Momentum.top_index sort_values self h in
        let score := fun s : string => Current h (mkIndicator s 126 Daily) in
        List.length top = 9%nat /\
        NoDup top /\
        incl top Momentum.universe /\
        StronglySorted (fun s s' => (score s' <= score s)%Q) top /\
        (forall s s' : string,
            In s top -> In s' Momentum.universe -> ~ In s' top ->
            (score s' <= score s)%Q) /\
        (IsWarmingUp h = false ->
         NoDup (map Symbol (Portfolio h)) ->
         incl Momentum.universe (map Symbol (Portfolio h)) ->
         exists (h' : Host) (cs : list HostCall),
           Momentum.Rebalance sort_values self h = Ok (tt, h') /\
           issued h h' cs /\
           (forall s : string,
               In (Liquidate s) cs <->
               invested_in (Portfolio h) s /\ ~ In s top) /\
           (forall s : string,
               (exists w : Q, In (SetHoldings s w) cs) <->
               In s top /\ ~ invested_in (Portfolio h) s))).
Proof.
  split; [reflexivity|]. split; [reflexivity|]. split.
  - intros h. destruct (momentum_Initialize_run h) as (h' & Hrun & Hcalls).
    exists rot_self, h'. repeat (split; [first [assumption|reflexivity]|]).
    intros s Hs. split; [|split].
    + revert s Hs. apply Forall_forall. unfold Momentum.universe.
      repeat (constructor; [vm_compute; reflexivity|]). constructor.
    + unfold momentum_init_calls. apply in_or_app. right.
      apply in_or_app. left. apply in_flat_map. exists s.
      split; [exact Hs | now left].
    + unfold momentum_init_calls. apply in_or_app. right.
      apply in_or_app. left. apply in_flat_map. exists s.
      split; [exact Hs | right; now left].
  - intros sort_values Hperm Hsorted h0 h1 h self Hinit top score.
    rewrite momentum_Initialize_eq in Hinit.
    inversion Hinit; subst self h1. clear Hinit.
    set (ranked := sort_values false (Momentum.scores rot_self h)).
    assert (Hrp : Permutation ranked (Momentum.scores rot_self h))
      by apply Hperm.
    assert (Hrs : StronglySorted (by_value false)
                                 (firstn 9 ranked ++ skipn 9 ranked))
      by (rewrite firstn_skipn; apply Hsorted).
    assert (Hval : forall x, In x ranked ->
                             In (fst x) Momentum.universe /\
                             snd x = score (fst x)).
    { intros x Hx. apply scores_value. exact (Permutation_in _ Hrp Hx). }
    assert (Hfirst : forall x, In x (firstn 9 ranked) -> In x ranked).
    { intros x Hx. rewrite <- (firstn_skipn 9 ranked).
      apply in_or_app. now left. }
    assert (Hincl : incl top Momentum.universe).
    { exact (top_index_incl sort_values rot_self h (Hperm false)). }
    split; [|split; [|split; [exact Hincl|split; [|split]]]].
    + unfold top.
      rewrite (top_index_length sort_values rot_self h (Hperm false)).
      reflexivity.
    + apply (top_index_NoDup sort_values rot_self h (Hperm false)).
      apply nodupb_sound. vm_compute. reflexivity.
    + unfold top, Momentum.top_index. fold ranked.
      apply sorted_symbols.
      * exact (StronglySorted_app_l _ _ _ Hrs).
      * intros x Hx. apply Hval, Hfirst, Hx.
    + intros s s' Hs Hs' Hout.
      unfold top, Momentum.top_index in Hs. fold ranked in Hs.
      apply in_map_iff in Hs. destruct Hs as (x & <- & Hx).
      assert (Hy : In (s', score s') ranked).
      { apply (Permutation_in _ (Permutation_sym Hrp)).
        rewrite scores_registered.
        apply in_map_iff. exists s'. now split. }
      rewrite <- (firstn_skipn 9 ranked) in Hy. apply in_app_or in Hy.
      destruct Hy as [Hy|Hy].
      * exfalso. apply Hout. unfold top, Momentum.top_index. fold ranked.
        apply in_map_iff. exists (s', score s'). now split.
      * pose proof (StronglySorted_app_le (by_value false) _ _ Hrs
                      x (s', score s') Hx Hy) as Hle.
        cbn in Hle. now rewrite (proj2 (Hval x (Hfirst x Hx))) in Hle.
    + intros Hw Hnd Huni.
      assert (Hin : incl top (map Symbol (Portfolio h)))
        by (intros s Hs; apply Huni, Hincl, Hs).
      pose proof (Rebalance_run sort_values rot_self h Hw Hnd Hin) as Hrun.
      cbv zeta in Hrun. fold top in Hrun.
      set (added := to_add top (Portfolio h)) in *.
      set (w := (1 / inject_Z (Z.of_nat (List.length added)))%Q) in *.
      eexists.
      exists (map Liquidate (to_liquidate top (Portfolio h))
              ++ map (fun x => SetHoldings x w) added).
      split; [exact Hrun|]. split; [|split].
      * unfold issued. rewrite set_all_calls, liquidate_all_calls.
        now rewrite <- app_assoc.
      * intros s. rewrite <- (to_liquidate_iff top (Portfolio h) s Hnd).
        rewrite in_app_iff, !in_map_iff. split.
        -- intros [(x & E & Hx)|(x & E & _)]; [|discriminate].
           inversion E. now subst.
        -- intros H. left. now exists s.
      * intros s. rewrite <- (to_add_iff top (Portfolio h) s Hin).
        fold added. split.
        -- intros (v & Hv). apply in_app_or in Hv.
           rewrite !in_map_iff in Hv.
           destruct Hv as [(x & E & _)|(x & E & Hx)]; [discriminate|].
           inversion E. now subst.
        -- intros H. exists w. apply in_or_app. right.
           apply in_map_iff. now exists s.
Qed.

Lemma momentum_ranking_witness :
  let top :=
    Momentum.top_index Momentum.insertion_sort rot_self
                       (rot_host false eight_held) in
  let score :=
    fun s : string =>
      Current (rot_host false eight_held) (mkIndicator s 126 Daily) in
  List.length top = 9%nat /\
  NoDup top /\
  incl top Momentum.universe /\
  StronglySorted (fun s s' => (score s' <= score s)%Q) top /\
  (forall s s' : string,
      In s top -> In s' Momentum.universe -> ~ In s' top ->
      (score s' <= score s)%Q) /\
  exists (h' : Host) (cs : list HostCall),
    Momentum.Rebalance Momentum.insertion_sort rot_self
                       (rot_host false eight_held) = Ok (tt, h') /\
    issued (rot_host false eight_held) h' cs /\
    (forall s : string,
        In (Liquidate s) cs <->
        invested_in (Portfolio (rot_host false eight_held)) s /\ ~ In s top) /\
    (forall s : string,
        (exists w : Q, In (SetHoldings s w) cs) <->
        In s top /\ ~ invested_in (Portfolio (rot_host false eight_held)) s).
Proof.
  destruct (proj2 (proj2 (proj2 momentum_ranking)) Momentum.insertion_sort
              insertion_sort_perm insertion_sort_sorted
              (rot_host true []) (momentum_init_host (rot_host true []))
              (rot_host false eight_held) rot_self
              (momentum_Initialize_eq (rot_host true [])))
    as (A & B & C & D & E & F).
  repeat (split; [assumption|]).
  apply F.
  - reflexivity.
  - apply rot_host_NoDup.
  - apply inclb_sound. vm_compute. reflexivity.
Defined.
